(** * Sxodim backend ([backend/main.py]): storage model, handlers, properties

    The backend is a FastAPI application over an SQLAlchemy session bound to
    an SQLite file.  The three tables are modelled as lists of rows in rowid
    order, the session as a pair (committed data, transaction view), and
    every handler as a computation in a small state-and-exception monad that
    follows the Python text statement by statement.

    Storage engine facts the model relies on (SQLite, as configured by
    [create_engine] on line 11, i.e. with its defaults):
    - an [Integer] primary key is an alias of the rowid; an insert without an
      id takes 1 on an empty table and the largest id in use plus one
      otherwise, so the id of a deleted last row is handed out again;
    - a query without ORDER BY scans the table in rowid order, so [.all()] is
      the filtered table and [.first()] is its head;
    - [=] on [String] columns is exact comparison;
    - [unique=True] on [users.login] refuses an insert of a login in use;
    - an integer of a request reaches the engine as a signed 64-bit value:
      the driver raises OverflowError, which no handler catches, for an
      integer outside that range;
    - foreign keys are declared but not enforced (the pragma is off), and
      [EventDB] has no ORM relationship, so deleting an event touches the
      [events] table only.

    Outside the model: the ids the engine hands out are unbounded here,
    while it stores 64-bit ones (no table is taken to reach the id 2^63-1);
    requests are served one at a time, so
    the interleaving of sessions is not described; payloads are taken after
    schema validation, so a malformed body (answered 422 by the framework)
    is not a [Request]. *)

From stdpp Require Import base numbers list strings sorting.

Local Open Scope string_scope.
Local Open Scope list_scope.
Local Open Scope Z_scope.

(** ** Database models (lines 20-49) *)

Module EventDB.
Record t : Type := mk {
  id : Z;
  name : string;
  date : string;
  time : string;
  place : string;
  description : string;
  image_url : string
}.
End EventDB.

Module UserDB.
Record t : Type := mk {
  id : Z;
  login : string;
  password : string
}.
End UserDB.

Module CalendarDB.
Record t : Type := mk {
  id : Z;
  user_id : Z;
  event_id : Z
}.
End CalendarDB.

(** The contents of [database.db]: one list of rows per table. *)
Record DB : Type := mkDB {
  events : list EventDB.t;
  users : list UserDB.t;
  calendar : list CalendarDB.t
}.

Definition empty_db : DB := mkDB [] [] [].

(** ** Schemas (lines 60-97) *)

Module Event.
Record t : Type := mk {
  id : option Z;
  name : string;
  date : string;
  time : string;
  place : string;
  description : string;
  image_url : string
}.

(** [from_attributes = True]: the response schema is read off the row. *)
Definition from_attributes (e : EventDB.t) : t :=
  mk (Some (EventDB.id e)) (EventDB.name e) (EventDB.date e) (EventDB.time e)
     (EventDB.place e) (EventDB.description e) (EventDB.image_url e).
End Event.

Module User.
Record t : Type := mk {
  id : Z;
  login : string
}.

Definition from_attributes (u : UserDB.t) : t :=
  mk (UserDB.id u) (UserDB.login u).
End User.

Module RegisterRequest.
Record t : Type := mk {
  login : string;
  password : string
}.
End RegisterRequest.

(** [class LoginRequest(RegisterRequest): pass] *)
Module LoginRequest.
Definition t : Type := RegisterRequest.t.
Definition login : t → string := RegisterRequest.login.
Definition password : t → string := RegisterRequest.password.
End LoginRequest.

Module CalendarItem.
Record t : Type := mk {
  user_id : Z;
  event_id : Z
}.
End CalendarItem.

(** A key of a JSON request body: left out, or given (possibly as [null]). *)
Inductive field (A : Type) : Type :=
  | absent
  | given (v : option A).
Arguments absent {A}.
Arguments given {A} v.

Module UserSettings.
Record t : Type := mk {
  theme : option string;
  notifications : option bool
}.

(** [UserSettings()]: every field at its declared default. *)
Definition default : t := mk (Some "light") (Some true).

(** The body of a settings request before schema construction. *)
Record body : Type := mk_body {
  theme_in : field string;
  notifications_in : field bool
}.

Definition field_or {A} (d : option A) (f : field A) : option A :=
  match f with
  | absent => d
  | given v => v
  end.

(** Schema construction: a key that is left out takes the default. *)
Definition validate (b : body) : t :=
  mk (field_or (theme default) (theme_in b))
     (field_or (notifications default) (notifications_in b)).
End UserSettings.

(** ** Session and handler monad (lines 102-107) *)

(** [stored] is what is committed to the file; [view] is what the open
    transaction sees.  [get_db] opens the session on the stored data and
    closes it on every exit path, which discards whatever was not
    committed. *)
Record Session : Type := mkSession {
  stored : DB;
  view : DB
}.

Inductive Outcome (A : Type) : Type :=
  | Return (a : A)
  | HTTPException (status_code : Z) (detail : string)
  | ServerError.
Arguments Return {A} a.
Arguments HTTPException {A} status_code detail.
Arguments ServerError {A}.

Definition Handler (A : Type) : Type := Session → Outcome A * Session.

#[global] Instance Handler_ret : MRet Handler :=
  λ A a s, (Return a, s).

#[global] Instance Handler_bind : MBind Handler :=
  λ A B k m s,
    match m s with
    | (Return a, s') => k a s'
    | (HTTPException c d, s') => (HTTPException c d, s')
    | (ServerError, s') => (ServerError, s')
    end.

Definition raise {A} (status_code : Z) (detail : string) : Handler A :=
  λ s, (HTTPException status_code detail, s).

Definition fault {A} : Handler A :=
  λ s, (ServerError, s).

(** [db.query(...)]: read the transaction's view. *)
Definition query {A} (q : DB → A) : Handler A :=
  λ s, (Return (q (view s)), s).

Definition modify (f : DB → DB) : Handler () :=
  λ s, (Return (), mkSession (stored s) (f (view s))).

(** [db.commit()] *)
Definition commit : Handler () :=
  λ s, (Return (), mkSession (view s) (view s)).

(** [Depends(get_db)]: run a handler in a fresh session, then close it. *)
Definition with_db {A} (h : Handler A) (db : DB) : Outcome A * DB :=
  let '(o, s) := h (mkSession db db) in (o, stored s).

(** The id the engine gives to a row inserted without one. *)
Definition next_rowid (ids : list Z) : Z :=
  match ids with
  | [] => 1
  | i :: rest => foldr Z.max i rest + 1
  end.

(** [.first()] of a filtered query. *)
Definition first {A} (rows : list A) : option A := head rows.

(** The range of an SQLite INTEGER: signed 64 bits. *)
Definition int64 (v : Z) : Prop :=
  -9223372036854775808 ≤ v ≤ 9223372036854775807.

#[global] Instance int64_dec (v : Z) : Decision (int64 v).
Proof. unfold int64. apply _. Defined.

(** [db.query(T).filter(T.col == v)] for an integer [v] that a request
    carries.  The driver hands [v] to the engine as a signed 64-bit integer
    and raises OverflowError, which no handler catches, when [v] does not
    fit.  The engine holds 64-bit integers only, so a value that some row
    carries always fits; over the unbounded ids of this model that reads:
    [v] is refused when it is outside the range and no row carries it. *)
Definition filter_by {A} (table : DB → list A) (col : A → Z) (v : Z)
    : Handler (list A) :=
  rows ← query (λ db, filter (λ r, col r = v) (table db));
  match rows with
  | [] => if decide (int64 v) then mret [] else fault
  | _ :: _ => mret rows
  end.

(** The same query ended by [.first()]. *)
Definition first_by {A} (table : DB → list A) (col : A → Z) (v : Z)
    : Handler (option A) :=
  rows ← filter_by table col v;
  mret (first rows).

Arguments filter_by : simpl never.
Arguments first_by : simpl never.

Definition set_events (f : list EventDB.t → list EventDB.t) (db : DB) : DB :=
  mkDB (f (events db)) (users db) (calendar db).
Definition set_users (f : list UserDB.t → list UserDB.t) (db : DB) : DB :=
  mkDB (events db) (f (users db)) (calendar db).
Definition set_calendar (f : list CalendarDB.t → list CalendarDB.t) (db : DB) : DB :=
  mkDB (events db) (users db) (f (calendar db)).

(** [db.add(obj)] for an object built without an id: the INSERT appends the
    row under a generated id, which the object then carries.  On [users] the
    INSERT is refused when the login is in use ([unique=True], line 36): an
    IntegrityError, which no handler catches. *)
Definition add_user (login password : string) : Handler UserDB.t :=
  rows ← query users;
  if decide (login ∈ UserDB.login <$> rows) then fault
  else
    let user := UserDB.mk (next_rowid (UserDB.id <$> rows)) login password in
    _ ← modify (set_users (λ rows, rows ++ [user]));
    mret user.

Definition add_event (e : Event.t) : Handler EventDB.t :=
  ids ← query (λ db, EventDB.id <$> events db);
  let new_event :=
    EventDB.mk (next_rowid ids) (Event.name e) (Event.date e) (Event.time e)
               (Event.place e) (Event.description e) (Event.image_url e) in
  _ ← modify (set_events (λ rows, rows ++ [new_event]));
  mret new_event.

Definition add_calendar (user_id event_id : Z) : Handler CalendarDB.t :=
  ids ← query (λ db, CalendarDB.id <$> calendar db);
  let item := CalendarDB.mk (next_rowid ids) user_id event_id in
  _ ← modify (set_calendar (λ rows, rows ++ [item]));
  mret item.

(** [db.refresh(obj)]: load the row again by primary key; a missing row is an
    uncaught error. *)
Definition refresh_user (user : UserDB.t) : Handler UserDB.t :=
  row ← query (λ db, first (filter (λ u, UserDB.id u = UserDB.id user) (users db)));
  match row with
  | Some u => mret u
  | None => fault
  end.

Definition refresh_event (e : EventDB.t) : Handler EventDB.t :=
  row ← query (λ db, first (filter (λ x, EventDB.id x = EventDB.id e) (events db)));
  match row with
  | Some x => mret x
  | None => fault
  end.

(** The loop of [setattr] calls on lines 157-158: every attribute but [id]
    is overwritten on the loaded object. *)
Definition setattrs (db_event : EventDB.t) (e : Event.t) : EventDB.t :=
  EventDB.mk (EventDB.id db_event) (Event.name e) (Event.date e) (Event.time e)
             (Event.place e) (Event.description e) (Event.image_url e).

(** Flush of a modified object: UPDATE ... WHERE events.id = its key. *)
Definition overwrite (e row : EventDB.t) : EventDB.t :=
  if decide (EventDB.id row = EventDB.id e) then e else row.

Definition flush_event (e : EventDB.t) : Handler () :=
  modify (set_events (fmap (overwrite e))).

(** [db.delete(obj)]: DELETE FROM events WHERE events.id = its key. *)
Definition delete (e : EventDB.t) : Handler () :=
  modify (set_events (filter (λ row, EventDB.id row ≠ EventDB.id e))).

(** ** Handlers (lines 111-208) *)

(** Line 112.  An ORM object is truthy, so [if q.first():] tests for a row. *)
Definition register (data : RegisterRequest.t) : Handler UserDB.t :=
  existing ← query (λ db,
    first (filter (λ u, UserDB.login u = RegisterRequest.login data) (users db)));
  match existing with
  | Some _ => raise 400 "User already exists"
  | None =>
      user ← add_user (RegisterRequest.login data) (RegisterRequest.password data);
      _ ← commit;
      refresh_user user
  end.

(** Line 124. *)
Definition login (data : LoginRequest.t) : Handler UserDB.t :=
  user ← query (λ db,
    first (filter (λ u, UserDB.login u = LoginRequest.login data
                        ∧ UserDB.password u = LoginRequest.password data)
                  (users db)));
  match user with
  | None => raise 401 "Invalid login or password"
  | Some u => mret u
  end.

(** Line 138. *)
Definition get_events : Handler (list EventDB.t) :=
  query events.

(** Line 143.  [event.dict(exclude={"id"})] drops the submitted id before the
    row object is built. *)
Definition create_event (event : Event.t) : Handler EventDB.t :=
  new_event ← add_event event;
  _ ← commit;
  refresh_event new_event.

(** Line 152. *)
Definition update_event (event_id : Z) (event : Event.t) : Handler EventDB.t :=
  found ← first_by events EventDB.id event_id;
  match found with
  | None => raise 404 "Event not found"
  | Some db_event =>
      let db_event := setattrs db_event event in
      _ ← flush_event db_event;
      _ ← commit;
      mret db_event
  end.

(** A handler that returns a dict: the JSON object as a list of pairs. *)
Definition dict : Type := list (string * string).

(** Line 165. *)
Definition delete_event (event_id : Z) : Handler dict :=
  found ← first_by events EventDB.id event_id;
  match found with
  | None => raise 404 "Event not found"
  | Some event =>
      _ ← delete event;
      _ ← commit;
      mret [("message", "Event deleted")]
  end.

(** Line 177.  Both lookups run before the test. *)
Definition add_to_calendar (data : CalendarItem.t) : Handler dict :=
  user ← first_by users UserDB.id (CalendarItem.user_id data);
  event ← first_by events EventDB.id (CalendarItem.event_id data);
  match user, event with
  | Some _, Some _ =>
      _ ← add_calendar (CalendarItem.user_id data) (CalendarItem.event_id data);
      _ ← commit;
      mret [("message", "Added to calendar")]
  | _, _ => raise 404 "User or Event not found"
  end.

(** Line 191.  The comprehension runs one query per entry, in order, and
    keeps what [.first()] gives for each, row or [None]. *)
Definition get_calendar (user_id : Z) : Handler (list (option EventDB.t)) :=
  items ← filter_by calendar CalendarDB.user_id user_id;
  mapM (λ item, first_by events EventDB.id (CalendarDB.event_id item)) items.

(** Lines 202 and 207: no session is requested. *)
Definition get_settings (user_id : Z) : UserSettings.t :=
  UserSettings.default.

Definition update_settings (user_id : Z) (settings : UserSettings.t) : UserSettings.t :=
  settings.

(** ** Routes: handler, session scope and [response_model] *)

Inductive Body : Type :=
  | UserBody (u : User.t)
  | EventBody (e : Event.t)
  | EventListBody (l : list Event.t)
  | DictBody (d : dict)
  | SettingsBody (s : UserSettings.t).

(** [response_model=...]: the returned value is validated into the schema,
    and a value that does not fit is an uncaught error of the server. *)
Definition response_model {A} (conv : A → option Body) (o : Outcome A) : Outcome Body :=
  match o with
  | Return a =>
      match conv a with
      | Some b => Return b
      | None => ServerError
      end
  | HTTPException c d => HTTPException c d
  | ServerError => ServerError
  end.

Definition as_User (u : UserDB.t) : option Body :=
  Some (UserBody (User.from_attributes u)).
Definition as_Event (e : EventDB.t) : option Body :=
  Some (EventBody (Event.from_attributes e)).
(** [List[Event]]: every element has to be a row; [None] is not an [Event]. *)
Definition as_List_Event (l : list (option EventDB.t)) : option Body :=
  EventListBody <$> mapM (fmap Event.from_attributes) l.
Definition as_dict (d : dict) : option Body :=
  Some (DictBody d).

Definition route {A} (conv : A → option Body) (h : Handler A) (db : DB)
    : Outcome Body * DB :=
  let '(o, db') := with_db h db in (response_model conv o, db').

Inductive Request : Type :=
  | POST_register (data : RegisterRequest.t)
  | POST_login (data : LoginRequest.t)
  | GET_events
  | POST_events (event : Event.t)
  | PUT_events (event_id : Z) (event : Event.t)
  | DELETE_events (event_id : Z)
  | POST_calendar (data : CalendarItem.t)
  | GET_calendar (user_id : Z)
  | GET_settings (user_id : Z)
  | PUT_settings (user_id : Z) (settings : UserSettings.body).

(** The application [app] serving one request against the stored data: the
    response and the data left. *)
Definition serve (req : Request) (db : DB) : Outcome Body * DB :=
  match req with
  | POST_register data => route as_User (register data) db
  | POST_login data => route as_User (login data) db
  | GET_events => route (as_List_Event ∘ fmap Some) get_events db
  | POST_events event => route as_Event (create_event event) db
  | PUT_events event_id event => route as_Event (update_event event_id event) db
  | DELETE_events event_id => route as_dict (delete_event event_id) db
  | POST_calendar data => route as_dict (add_to_calendar data) db
  | GET_calendar user_id => route as_List_Event (get_calendar user_id) db
  | GET_settings user_id => (Return (SettingsBody (get_settings user_id)), db)
  | PUT_settings user_id settings =>
      (Return (SettingsBody (update_settings user_id (UserSettings.validate settings))), db)
  end.

(** The data left after a sequence of requests, oldest first. *)
Definition run (reqs : list Request) (db : DB) : DB :=
  foldl (λ d req, (serve req d).2) db reqs.

(** The states the service can be in: those reached from the empty database
    created on line 52. *)
Definition reachable (db : DB) : Prop :=
  ∃ reqs, db = run reqs empty_db.

(** ** Predicates on the stored data *)

Definition has_user (db : DB) (user_id : Z) : Prop :=
  ∃ u, u ∈ users db ∧ UserDB.id u = user_id.

Definition has_event (db : DB) (event_id : Z) : Prop :=
  ∃ e, e ∈ events db ∧ EventDB.id e = event_id.

Definition login_taken (db : DB) (l : string) : Prop :=
  ∃ u, u ∈ users db ∧ UserDB.login u = l.

Definition credentials_match (db : DB) (data : LoginRequest.t) : Prop :=
  ∃ u, u ∈ users db ∧ UserDB.login u = LoginRequest.login data
       ∧ UserDB.password u = LoginRequest.password data.

Ltac handler_unfold :=
  unfold with_db, mbind, Handler_bind, mret, Handler_ret,
    query, modify, commit, raise, fault; cbn.

(** Settle a decidable statement about a concrete state by evaluation. *)
Ltac by_computation := apply (bool_decide_unpack _); vm_compute; exact I.

(** The table invariants of a primary key fed by [next_rowid]. *)
Definition ids_ok (ids : list Z) : Prop :=
  NoDup ids ∧ Forall (λ i, 1 ≤ i) ids.

(** What holds of the stored data between requests: primary keys are
    distinct and positive, logins are distinct (the [unique=True] of line 36),
    and every calendar entry belongs to a stored user. *)
Record db_ok (db : DB) : Prop := mk_db_ok {
  ok_events : ids_ok (EventDB.id <$> events db);
  ok_users : ids_ok (UserDB.id <$> users db);
  ok_calendar : ids_ok (CalendarDB.id <$> calendar db);
  ok_logins : NoDup (UserDB.login <$> users db);
  ok_owner : Forall (λ c, has_user db (CalendarDB.user_id c)) (calendar db)
}.

(** A calendar entry whose event is gone. *)
Definition orphaned (db : DB) (c : CalendarDB.t) : Prop :=
  c ∈ calendar db ∧ ¬ has_event db (CalendarDB.event_id c).

(** ** Sample requests and states *)

Definition alice : RegisterRequest.t := RegisterRequest.mk "alice" "secret".

Definition concert : Event.t :=
  Event.mk None "Concert" "2024-05-01" "19:00" "Hall" "Live music" "/img/concert.png".

Definition lecture : Event.t :=
  Event.mk (Some 77) "Lecture" "2024-06-02" "10:30" "Library" "Public talk" "/img/lecture.png".

(** A user, an event, and the event in the calendar of the user. *)
Definition booked_history : list Request :=
  [POST_register alice; POST_events concert; POST_calendar (CalendarItem.mk 1 1)].

Definition booked_db : DB := run booked_history empty_db.

(** The same, after which the event is deleted. *)
Definition orphan_history : list Request :=
  booked_history ++ [DELETE_events 1].

Definition orphan_db : DB := run orphan_history empty_db.

(** ** Facts about the storage primitives *)

Section Queries.
Context {A : Type} (P : A → Prop) `{!∀ x, Decision (P x)}.

Lemma first_filter_Some (rows : list A) (x : A) :
  first (filter P rows) = Some x → x ∈ rows ∧ P x.
Proof.
  unfold first. intros Hhd.
  apply head_Some_elem_of in Hhd.
  by apply list_elem_of_filter in Hhd as [? ?].
Qed.

Lemma first_filter_None (rows : list A) :
  first (filter P rows) = None ↔ ∀ x, x ∈ rows → ¬ P x.
Proof.
  unfold first. rewrite head_None. split.
  - intros Hnil x Hx HP.
    assert (x ∈ filter P rows) as Hin by (apply list_elem_of_filter; done).
    rewrite Hnil in Hin. by apply not_elem_of_nil in Hin.
  - intros Hall. induction rows as [|y rows IH]; [done|].
    rewrite filter_cons. destruct (decide (P y)) as [HP|HP].
    + exfalso. apply (Hall y); [left | done].
    + apply IH. intros x Hx. apply Hall. by right.
Qed.

Lemma first_filter_found (rows : list A) (x : A) :
  x ∈ rows → P x → ∃ y, first (filter P rows) = Some y ∧ y ∈ rows ∧ P y.
Proof.
  intros Hx HP.
  destruct (first (filter P rows)) as [y|] eqn:Hf.
  - exists y. split; [done|]. by apply first_filter_Some.
  - exfalso. by apply (proj1 (first_filter_None rows) Hf x).
Qed.

(** A row appended to a table is what the query finds when no older row
    matches. *)
Lemma first_filter_snoc_new (rows : list A) (x : A) :
  (∀ y, y ∈ rows → ¬ P y) → P x → first (filter P (rows ++ [x])) = Some x.
Proof.
  intros Hold HP. rewrite filter_app.
  assert (filter P rows = []) as ->.
  { apply head_None. by apply first_filter_None. }
  rewrite app_nil_l, filter_cons. by destruct (decide (P x)).
Qed.

Lemma first_filter_snoc_old (rows : list A) (x : A) :
  ¬ P x → first (filter P (rows ++ [x])) = first (filter P rows).
Proof.
  intros HP. rewrite filter_app, filter_cons.
  destruct (decide (P x)); [done|].
  by rewrite filter_nil, app_nil_r.
Qed.
End Queries.

Section Rowids.

Lemma foldr_max_ge (i : Z) (rest : list Z) :
  i ≤ foldr Z.max i rest ∧ Forall (λ j, j ≤ foldr Z.max i rest) rest.
Proof.
  induction rest as [|k rest [IH1 IH2]]; cbn; [by split|].
  split; [lia|]. constructor; [lia|].
  eapply Forall_impl; [exact IH2|]. cbn. intros; lia.
Qed.

(** A generated id is larger than every id in use. *)
Lemma next_rowid_gt (ids : list Z) (i : Z) :
  i ∈ ids → i < next_rowid ids.
Proof.
  destruct ids as [|j rest]; [by intros ?%not_elem_of_nil|].
  cbn. destruct (foldr_max_ge j rest) as [Hj Hrest].
  intros [->|Hin]%elem_of_cons; [lia|].
  rewrite Forall_forall in Hrest. specialize (Hrest _ Hin). lia.
Qed.

Lemma next_rowid_fresh (ids : list Z) :
  next_rowid ids ∉ ids.
Proof. intros Hin%next_rowid_gt. lia. Qed.

Lemma next_rowid_pos (ids : list Z) :
  Forall (λ i, 1 ≤ i) ids → 1 ≤ next_rowid ids.
Proof.
  destruct ids as [|j rest]; cbn; [lia|].
  intros [Hj _]%Forall_cons. destruct (foldr_max_ge j rest). lia.
Qed.

End Rowids.

(** ** Deciding the lookups *)

Lemma has_event_ids (db : DB) (event_id : Z) :
  has_event db event_id ↔ event_id ∈ EventDB.id <$> events db.
Proof.
  unfold has_event. rewrite list_elem_of_fmap.
  split; [intros (x & Hx & <-) | intros (x & -> & Hx)]; by exists x.
Qed.

Lemma has_user_ids (db : DB) (user_id : Z) :
  has_user db user_id ↔ user_id ∈ UserDB.id <$> users db.
Proof.
  unfold has_user. rewrite list_elem_of_fmap.
  split; [intros (x & Hx & <-) | intros (x & -> & Hx)]; by exists x.
Qed.

Lemma login_taken_logins (db : DB) (l : string) :
  login_taken db l ↔ l ∈ UserDB.login <$> users db.
Proof.
  unfold login_taken. rewrite list_elem_of_fmap.
  split; [intros (x & Hx & <-) | intros (x & -> & Hx)]; by exists x.
Qed.

#[global] Instance has_event_dec (db : DB) (event_id : Z) :
  Decision (has_event db event_id).
Proof.
  refine (cast_if (decide (event_id ∈ EventDB.id <$> events db)));
    [by apply has_event_ids | by intros ?%has_event_ids].
Defined.

#[global] Instance has_user_dec (db : DB) (user_id : Z) :
  Decision (has_user db user_id).
Proof.
  refine (cast_if (decide (user_id ∈ UserDB.id <$> users db)));
    [by apply has_user_ids | by intros ?%has_user_ids].
Defined.

#[global] Instance login_taken_dec (db : DB) (l : string) :
  Decision (login_taken db l).
Proof.
  refine (cast_if (decide (l ∈ UserDB.login <$> users db)));
    [by apply login_taken_logins | by intros ?%login_taken_logins].
Defined.

#[global] Instance credentials_match_dec (db : DB) (data : LoginRequest.t) :
  Decision (credentials_match db data).
Proof.
  refine (cast_if (decide (Exists
    (λ u, UserDB.login u = LoginRequest.login data
          ∧ UserDB.password u = LoginRequest.password data) (users db))));
    unfold credentials_match; rewrite Exists_exists in *; naive_solver.
Defined.

(** ** Integer parameters *)

Section Parameters.
Context {A : Type} (table : DB → list A) (col : A → Z) (v : Z) (s : Session).

Lemma filter_by_rows (x : A) :
  x ∈ table (view s) → col x = v →
  filter_by table col v s
  = (Return (filter (λ r, col r = v) (table (view s))), s).
Proof.
  intros Hx Hv. unfold filter_by. handler_unfold.
  destruct (filter (λ r, col r = v) (table (view s))) as [|y l] eqn:Hf; [|done].
  assert (x ∈ filter (λ r, col r = v) (table (view s))) as Hin
    by (by apply list_elem_of_filter).
  rewrite Hf in Hin. by apply not_elem_of_nil in Hin.
Qed.

Lemma filter_by_in_range :
  int64 v →
  filter_by table col v s
  = (Return (filter (λ r, col r = v) (table (view s))), s).
Proof.
  intros Hv. unfold filter_by. handler_unfold.
  destruct (filter (λ r, col r = v) (table (view s))) as [|y l]; [|done].
  by rewrite decide_True.
Qed.

Lemma filter_by_refused :
  (∀ x, x ∈ table (view s) → col x ≠ v) → ¬ int64 v →
  filter_by table col v s = (ServerError, s).
Proof.
  intros Hnone Hv. unfold filter_by. handler_unfold.
  assert (filter (λ r, col r = v) (table (view s)) = []) as ->.
  { apply head_None. by apply first_filter_None. }
  by rewrite decide_False.
Qed.

Lemma first_by_found (x : A) :
  x ∈ table (view s) → col x = v →
  ∃ y, first_by table col v s = (Return (Some y), s)
       ∧ first (filter (λ r, col r = v) (table (view s))) = Some y
       ∧ y ∈ table (view s) ∧ col y = v.
Proof.
  intros Hx Hv.
  destruct (first_filter_found (λ r, col r = v) (table (view s)) x Hx Hv)
    as (y & Hy & Hin & Hcol).
  exists y. split_and!; [|done..].
  unfold first_by. handler_unfold. rewrite (filter_by_rows x Hx Hv). cbn.
  by rewrite Hy.
Qed.

Lemma first_by_missing :
  (∀ x, x ∈ table (view s) → col x ≠ v) → int64 v →
  first_by table col v s = (Return None, s).
Proof.
  intros Hnone Hv. unfold first_by. handler_unfold.
  rewrite (filter_by_in_range Hv). cbn.
  by rewrite (proj2 (first_filter_None (λ r, col r = v) _) Hnone).
Qed.

Lemma first_by_refused :
  (∀ x, x ∈ table (view s) → col x ≠ v) → ¬ int64 v →
  first_by table col v s = (ServerError, s).
Proof.
  intros Hnone Hv. unfold first_by. handler_unfold.
  by rewrite (filter_by_refused Hnone Hv).
Qed.

(** The three ways the query can end. *)
Lemma first_by_cases :
  (∃ y, first_by table col v s = (Return (Some y), s)
        ∧ first (filter (λ r, col r = v) (table (view s))) = Some y
        ∧ y ∈ table (view s) ∧ col y = v)
  ∨ (first_by table col v s = (Return None, s)
     ∧ (∀ x, x ∈ table (view s) → col x ≠ v) ∧ int64 v)
  ∨ (first_by table col v s = (ServerError, s)
     ∧ (∀ x, x ∈ table (view s) → col x ≠ v) ∧ ¬ int64 v).
Proof.
  destruct (first (filter (λ r, col r = v) (table (view s)))) as [y|] eqn:Hf.
  - pose proof (first_filter_Some _ _ _ Hf) as [Hy Hcol].
    destruct (first_by_found y Hy Hcol) as (z & Hz & Hfz & Hin & Hc).
    left. exists z. by rewrite Hf in Hfz.
  - pose proof (proj1 (first_filter_None _ _) Hf) as Hnone.
    destruct (decide (int64 v)) as [Hv|Hv].
    + right. left. by rewrite first_by_missing.
    + right. right. by rewrite first_by_refused.
Qed.

(** On a table whose values fit, as every table of the engine does, a
    parameter is refused exactly when it is outside the range. *)
Lemma filter_by_engine :
  Forall int64 (col <$> table (view s)) →
  filter_by table col v s
  = if decide (int64 v)
    then (Return (filter (λ r, col r = v) (table (view s))), s)
    else (ServerError, s).
Proof.
  intros Hfit. destruct (decide (int64 v)) as [Hv|Hv].
  - by apply filter_by_in_range.
  - apply filter_by_refused; [|done]. intros x Hx Hcol. apply Hv.
    rewrite Forall_forall in Hfit. apply Hfit. rewrite <- Hcol.
    by apply list_elem_of_fmap_2.
Qed.

End Parameters.

(** ** What each handler does to the stored data *)

Section HandlerRuns.
Variable db : DB.

Lemma register_run_new (data : RegisterRequest.t) :
  ¬ login_taken db (RegisterRequest.login data) →
  let user := UserDB.mk (next_rowid (UserDB.id <$> users db))
                (RegisterRequest.login data) (RegisterRequest.password data) in
  with_db (register data) db = (Return user, set_users (λ rows, rows ++ [user]) db).
Proof.
  intros Hfree user. unfold register. handler_unfold.
  assert (first (filter (λ u, UserDB.login u = RegisterRequest.login data)
                        (users db)) = None) as ->.
  { apply first_filter_None. intros u Hu Hl. apply Hfree. by exists u. }
  unfold add_user, refresh_user. handler_unfold.
  rewrite decide_False by (by intros ?%login_taken_logins).
  handler_unfold.
  rewrite first_filter_snoc_new; [done| |done].
  intros y Hy Hid.
  apply (next_rowid_fresh (UserDB.id <$> users db)).
  rewrite <- Hid. apply list_elem_of_fmap. by exists y.
Qed.

Lemma register_run_taken (data : RegisterRequest.t) :
  login_taken db (RegisterRequest.login data) →
  with_db (register data) db = (HTTPException 400 "User already exists", db).
Proof.
  intros (u & Hu & Hl). unfold register. handler_unfold.
  destruct (first_filter_found (λ u, UserDB.login u = RegisterRequest.login data)
              (users db) u Hu Hl) as (y & -> & _).
  done.
Qed.

Lemma login_run_match (data : LoginRequest.t) :
  credentials_match db data →
  ∃ u, u ∈ users db
       ∧ UserDB.login u = LoginRequest.login data
       ∧ UserDB.password u = LoginRequest.password data
       ∧ with_db (login data) db = (Return u, db).
Proof.
  intros (u & Hu & Hl & Hp). unfold login. handler_unfold.
  destruct (first_filter_found
              (λ u, UserDB.login u = LoginRequest.login data
                    ∧ UserDB.password u = LoginRequest.password data)
              (users db) u Hu (conj Hl Hp)) as (y & -> & Hy & Hyl & Hyp).
  by exists y.
Qed.

Lemma login_run_no_match (data : LoginRequest.t) :
  ¬ credentials_match db data →
  with_db (login data) db = (HTTPException 401 "Invalid login or password", db).
Proof.
  intros Hno. unfold login. handler_unfold.
  assert (first (filter (λ u, UserDB.login u = LoginRequest.login data
                              ∧ UserDB.password u = LoginRequest.password data)
                        (users db)) = None) as ->; [|done].
  apply first_filter_None. intros u Hu [Hl Hp]. apply Hno. by exists u.
Qed.

Lemma create_event_run (event : Event.t) :
  let new_event :=
    EventDB.mk (next_rowid (EventDB.id <$> events db)) (Event.name event)
      (Event.date event) (Event.time event) (Event.place event)
      (Event.description event) (Event.image_url event) in
  with_db (create_event event) db
  = (Return new_event, set_events (λ rows, rows ++ [new_event]) db).
Proof.
  intros new_event. unfold create_event, add_event, refresh_event. handler_unfold.
  rewrite first_filter_snoc_new; [done| |done].
  intros y Hy Hid.
  apply (next_rowid_fresh (EventDB.id <$> events db)).
  rewrite <- Hid. apply list_elem_of_fmap. by exists y.
Qed.

Lemma update_event_run_found (event_id : Z) (event : Event.t) :
  has_event db event_id →
  let updated :=
    EventDB.mk event_id (Event.name event) (Event.date event) (Event.time event)
      (Event.place event) (Event.description event) (Event.image_url event) in
  with_db (update_event event_id event) db
  = (Return updated, set_events (fmap (overwrite updated)) db).
Proof.
  intros (e & He & Hid) updated. unfold update_event. handler_unfold.
  destruct (first_by_found events EventDB.id event_id (mkSession db db) e He Hid)
    as (y & -> & _ & _ & Hy).
  unfold flush_event, setattrs. handler_unfold. rewrite Hy. done.
Qed.

Lemma update_event_run_missing (event_id : Z) (event : Event.t) :
  ¬ has_event db event_id → int64 event_id →
  with_db (update_event event_id event) db
  = (HTTPException 404 "Event not found", db).
Proof.
  intros Hno Hv. unfold update_event. handler_unfold.
  rewrite first_by_missing; [done| |done].
  intros e He Hid. apply Hno. by exists e.
Qed.

Lemma update_event_run_refused (event_id : Z) (event : Event.t) :
  ¬ has_event db event_id → ¬ int64 event_id →
  with_db (update_event event_id event) db = (ServerError, db).
Proof.
  intros Hno Hv. unfold update_event. handler_unfold.
  rewrite first_by_refused; [done| |done].
  intros e He Hid. apply Hno. by exists e.
Qed.

Lemma update_event_absent_snd (event_id : Z) (event : Event.t) :
  ¬ has_event db event_id →
  (with_db (update_event event_id event) db).2 = db.
Proof.
  intros Hno. destruct (decide (int64 event_id)).
  - by rewrite update_event_run_missing.
  - by rewrite update_event_run_refused.
Qed.

Lemma delete_event_run_found (event_id : Z) :
  has_event db event_id →
  with_db (delete_event event_id) db
  = (Return [("message", "Event deleted")],
     set_events (filter (λ row, EventDB.id row ≠ event_id)) db).
Proof.
  intros (e & He & Hid). unfold delete_event. handler_unfold.
  destruct (first_by_found events EventDB.id event_id (mkSession db db) e He Hid)
    as (y & -> & _ & _ & Hy).
  unfold delete. handler_unfold. rewrite Hy. done.
Qed.

Lemma delete_event_run_missing (event_id : Z) :
  ¬ has_event db event_id → int64 event_id →
  with_db (delete_event event_id) db
  = (HTTPException 404 "Event not found", db).
Proof.
  intros Hno Hv. unfold delete_event. handler_unfold.
  rewrite first_by_missing; [done| |done].
  intros e He Hid. apply Hno. by exists e.
Qed.

Lemma delete_event_run_refused (event_id : Z) :
  ¬ has_event db event_id → ¬ int64 event_id →
  with_db (delete_event event_id) db = (ServerError, db).
Proof.
  intros Hno Hv. unfold delete_event. handler_unfold.
  rewrite first_by_refused; [done| |done].
  intros e He Hid. apply Hno. by exists e.
Qed.

Lemma delete_event_absent_snd (event_id : Z) :
  ¬ has_event db event_id →
  (with_db (delete_event event_id) db).2 = db.
Proof.
  intros Hno. destruct (decide (int64 event_id)).
  - by rewrite delete_event_run_missing.
  - by rewrite delete_event_run_refused.
Qed.

Lemma add_to_calendar_run_ok (data : CalendarItem.t) :
  has_user db (CalendarItem.user_id data) →
  has_event db (CalendarItem.event_id data) →
  let item := CalendarDB.mk (next_rowid (CalendarDB.id <$> calendar db))
                (CalendarItem.user_id data) (CalendarItem.event_id data) in
  with_db (add_to_calendar data) db
  = (Return [("message", "Added to calendar")],
     set_calendar (λ rows, rows ++ [item]) db).
Proof.
  intros (u & Hu & Hui) (e & He & Hei) item. unfold add_to_calendar. handler_unfold.
  destruct (first_by_found users UserDB.id (CalendarItem.user_id data)
              (mkSession db db) u Hu Hui) as (? & -> & _).
  destruct (first_by_found events EventDB.id (CalendarItem.event_id data)
              (mkSession db db) e He Hei) as (? & -> & _).
  unfold add_calendar. handler_unfold. done.
Qed.

Lemma add_to_calendar_run_missing (data : CalendarItem.t) :
  ¬ has_user db (CalendarItem.user_id data)
  ∨ ¬ has_event db (CalendarItem.event_id data) →
  has_user db (CalendarItem.user_id data) ∨ int64 (CalendarItem.user_id data) →
  has_event db (CalendarItem.event_id data) ∨ int64 (CalendarItem.event_id data) →
  with_db (add_to_calendar data) db
  = (HTTPException 404 "User or Event not found", db).
Proof.
  intros Hno Hu He. unfold add_to_calendar. handler_unfold.
  destruct (first_by_cases users UserDB.id (CalendarItem.user_id data)
              (mkSession db db))
    as [(u & -> & _ & Hin & Hid)|[(-> & Hnu & _)|(_ & Hnu & Hvu)]]; cycle 2.
  { exfalso. destruct Hu as [(u & Hin & Hid)|Hu]; [by apply (Hnu u)|done]. }
  all: cbn.
  all: destruct (first_by_cases events EventDB.id (CalendarItem.event_id data)
              (mkSession db db))
    as [(e & -> & _ & Hine & Hide)|[(-> & Hne & _)|(_ & Hne & Hve)]]; try done.
  - exfalso. destruct Hno as [Hno|Hno]; apply Hno; [by exists u | by exists e].
  - exfalso. destruct He as [(e & Hine & Hide)|He]; [by apply (Hne e)|done].
  - exfalso. destruct He as [(e & Hine & Hide)|He]; [by apply (Hne e)|done].
Qed.

(** Both lookups run, in order, before the test: one that is refused ends
    the request whatever the other finds. *)
Lemma add_to_calendar_run_refused (data : CalendarItem.t) :
  (¬ has_user db (CalendarItem.user_id data) ∧ ¬ int64 (CalendarItem.user_id data))
  ∨ (¬ has_event db (CalendarItem.event_id data)
     ∧ ¬ int64 (CalendarItem.event_id data)) →
  with_db (add_to_calendar data) db = (ServerError, db).
Proof.
  intros Hno. unfold add_to_calendar. handler_unfold.
  destruct (first_by_cases users UserDB.id (CalendarItem.user_id data)
              (mkSession db db))
    as [(u & -> & _ & Hin & Hid)|[(-> & Hnu & Hvu)|(-> & Hnu & Hvu)]];
    [| |done].
  all: cbn.
  all: destruct (first_by_cases events EventDB.id (CalendarItem.event_id data)
              (mkSession db db))
    as [(e & -> & _ & Hine & Hide)|[(-> & Hne & Hve)|(-> & Hne & Hve)]];
    try done; exfalso;
    destruct Hno as [[Hno Hv]|[Hno Hv]]; try done;
    apply Hno; by eexists.
Qed.

Lemma add_to_calendar_absent_snd (data : CalendarItem.t) :
  ¬ has_user db (CalendarItem.user_id data)
  ∨ ¬ has_event db (CalendarItem.event_id data) →
  (with_db (add_to_calendar data) db).2 = db.
Proof.
  intros Hno.
  destruct (decide (has_user db (CalendarItem.user_id data)
                    ∨ int64 (CalendarItem.user_id data))) as [Hu|Hu];
  [destruct (decide (has_event db (CalendarItem.event_id data)
                     ∨ int64 (CalendarItem.event_id data))) as [He|He]|].
  - by rewrite add_to_calendar_run_missing.
  - rewrite add_to_calendar_run_refused; [done|]. right.
    split; intros ?; apply He; [by left|by right].
  - rewrite add_to_calendar_run_refused; [done|]. left.
    split; intros ?; apply Hu; [by left|by right].
Qed.

(** What [.first()] gives for the event of a calendar entry. *)
Lemma get_calendar_events (items : list CalendarDB.t) (s : Session) :
  let lookup item :=
    first (filter (λ e, EventDB.id e = CalendarDB.event_id item) (events (view s))) in
  mapM (λ item, first_by events EventDB.id (CalendarDB.event_id item)) items s
  = (Return (lookup <$> items), s)
  ∨ (mapM (λ item, first_by events EventDB.id (CalendarDB.event_id item)) items s
     = (ServerError, s)
     ∧ ∃ c, c ∈ items ∧ ¬ has_event (view s) (CalendarDB.event_id c)
            ∧ ¬ int64 (CalendarDB.event_id c)).
Proof.
  intros lookup. induction items as [|c items IH]; [by left|].
  assert (mapM (λ item, first_by events EventDB.id (CalendarDB.event_id item))
            (c :: items) s
          = match first_by events EventDB.id (CalendarDB.event_id c) s with
            | (Return y, s') =>
                match mapM (λ item, first_by events EventDB.id
                                      (CalendarDB.event_id item)) items s' with
                | (Return k, s'') => (Return (y :: k), s'')
                | (HTTPException a b, s'') => (HTTPException a b, s'')
                | (ServerError, s'') => (ServerError, s'')
                end
            | (HTTPException a b, s') => (HTTPException a b, s')
            | (ServerError, s') => (ServerError, s')
            end) as -> by reflexivity.
  destruct (first_by_cases events EventDB.id (CalendarDB.event_id c) s)
    as [(y & -> & Hy & _)|[(-> & Hnone & _)|(-> & Hnone & Hv)]].
  - destruct IH as [->|(-> & c' & Hc' & Hno & Hv)].
    + left. rewrite fmap_cons. subst lookup. cbn beta. by rewrite Hy.
    + right. split; [done|]. exists c'. split; [by right|done].
  - destruct IH as [->|(-> & c' & Hc' & Hno & Hv)].
    + left. rewrite fmap_cons. subst lookup. cbn beta.
      by rewrite (proj2 (first_filter_None _ _) Hnone).
    + right. split; [done|]. exists c'. split; [by right|done].
  - right. split; [done|]. exists c. split; [by left|]. split; [|done].
    intros (e & He & Hid). by apply (Hnone e).
Qed.

(** The calendar query: refused, or the events of the entries of the user,
    entry by entry; the stored data is never touched. *)
Lemma get_calendar_cases (user_id : Z) :
  let entries := filter (λ c, CalendarDB.user_id c = user_id) (calendar db) in
  let lookup item :=
    first (filter (λ e, EventDB.id e = CalendarDB.event_id item) (events db)) in
  (with_db (get_calendar user_id) db = (Return (lookup <$> entries), db)
   ∧ (entries ≠ [] ∨ int64 user_id))
  ∨ (with_db (get_calendar user_id) db = (ServerError, db)
     ∧ ((entries = [] ∧ ¬ int64 user_id)
        ∨ ∃ c, c ∈ entries ∧ ¬ has_event db (CalendarDB.event_id c)
               ∧ ¬ int64 (CalendarDB.event_id c))).
Proof.
  intros entries lookup.
  assert (with_db (get_calendar user_id) db
          = match filter_by calendar CalendarDB.user_id user_id (mkSession db db) with
            | (Return items, s') =>
                let '(o, s'') :=
                  mapM (λ item, first_by events EventDB.id
                                  (CalendarDB.event_id item)) items s' in
                (o, stored s'')
            | (HTTPException a b, s') => (HTTPException a b, stored s')
            | (ServerError, s') => (ServerError, stored s')
            end) as ->.
  { unfold with_db, get_calendar, mbind, Handler_bind.
    by destruct (filter_by _ _ _ _) as [[items| |] s']. }
  destruct (decide (entries = [])) as [Hnil|Hcons].
  - destruct (decide (int64 user_id)) as [Hv|Hv].
    + left. rewrite filter_by_in_range by done. cbn [view]. fold entries.
      rewrite Hnil. split; [done|by right].
    + right. rewrite filter_by_refused; [split; [done|by left]| |done].
      intros c Hc Hu.
      assert (c ∈ entries) as Hin by (by apply list_elem_of_filter).
      rewrite Hnil in Hin. by apply not_elem_of_nil in Hin.
  - destruct entries as [|c0 rest] eqn:Hentries; [done|].
    assert (c0 ∈ entries) as Hc0 by (rewrite Hentries; by left).
    apply list_elem_of_filter in Hc0 as [Hu0 Hin0].
    rewrite (filter_by_rows calendar CalendarDB.user_id user_id
               (mkSession db db) c0 Hin0 Hu0).
    cbn [view]. fold entries. rewrite Hentries.
    destruct (get_calendar_events (c0 :: rest) (mkSession db db))
      as [->|(-> & c & Hc & Hno & Hv)].
    + left. split; [done|by left].
    + right. split; [done|]. right. by exists c.
Qed.

Lemma get_calendar_snd (user_id : Z) :
  (with_db (get_calendar user_id) db).2 = db.
Proof. by destruct (get_calendar_cases user_id) as [[-> _]|[-> _]]. Qed.

Lemma get_events_run :
  with_db get_events db = (Return (events db), db).
Proof. reflexivity. Qed.

End HandlerRuns.

(** ** Responses *)

Lemma route_fst {A} (conv : A → option Body) (h : Handler A) (db : DB) :
  (route conv h db).1 = response_model conv (with_db h db).1.
Proof. unfold route. by destruct (with_db h db). Qed.

Lemma route_snd {A} (conv : A → option Body) (h : Handler A) (db : DB) :
  (route conv h db).2 = (with_db h db).2.
Proof. unfold route. by destruct (with_db h db). Qed.

Lemma route_run {A} (conv : A → option Body) (h : Handler A) (db db' : DB)
    (o : Outcome A) :
  with_db h db = (o, db') → route conv h db = (response_model conv o, db').
Proof. unfold route. by intros ->. Qed.

(** A list of rows always fits [List[Event]]. *)
Lemma as_List_Event_rows (rows : list EventDB.t) :
  as_List_Event (Some <$> rows)
  = Some (EventListBody (Event.from_attributes <$> rows)).
Proof.
  unfold as_List_Event.
  rewrite (mapM_Some_2 _ (Some <$> rows) (Event.from_attributes <$> rows)); [done|].
  induction rows as [|e rows IH]; cbn; by constructor.
Qed.

(** A list with a [None] in it does not. *)
Lemma as_List_Event_None (l : list (option EventDB.t)) :
  None ∈ l → as_List_Event l = None.
Proof.
  intros Hin. unfold as_List_Event.
  rewrite (mapM_None_2 (fmap Event.from_attributes) l); [done|].
  apply Exists_exists. by exists None.
Qed.

(** ** The invariant of the stored data *)

Lemma ids_ok_nil : ids_ok [].
Proof. split; constructor. Qed.

Lemma ids_ok_snoc (ids : list Z) :
  ids_ok ids → ids_ok (ids ++ [next_rowid ids]).
Proof.
  intros [Hnd Hpos]. split.
  - apply NoDup_app. split_and!; [done| |apply NoDup_singleton].
    intros i Hi ->%list_elem_of_singleton. by apply (next_rowid_fresh ids).
  - apply Forall_app. split; [done|].
    apply Forall_singleton. by apply next_rowid_pos.
Qed.

Lemma ids_ok_sublist (ids ids' : list Z) :
  ids' `sublist_of` ids → ids_ok ids → ids_ok ids'.
Proof.
  intros Hsub [Hnd Hpos]. split.
  - by eapply sublist_NoDup.
  - rewrite Forall_forall in *. intros i Hi. apply Hpos.
    by eapply elem_of_sublist.
Qed.

Lemma db_ok_empty : db_ok empty_db.
Proof.
  split; cbn; try apply ids_ok_nil; constructor.
Qed.

Section Preservation.
Variable db : DB.
Hypothesis Hok : db_ok db.

Lemma register_db_ok (data : RegisterRequest.t) :
  db_ok (with_db (register data) db).2.
Proof.
  destruct (decide (login_taken db (RegisterRequest.login data))) as [Ht|Hf].
  - by rewrite register_run_taken.
  - rewrite register_run_new by done. destruct Hok as [He Hu Hc Hl Ho]. cbn.
    split; cbn; try done.
    + rewrite fmap_app. cbn. by apply ids_ok_snoc.
    + rewrite fmap_app. cbn. apply NoDup_app. split_and!; [done| |apply NoDup_singleton].
      intros l Hin ->%list_elem_of_singleton. by apply Hf, login_taken_logins.
    + eapply Forall_impl; [exact Ho|]. cbn. intros c (u & Hu' & Hid).
      exists u. split; [|done]. cbn. apply elem_of_app. by left.
Qed.

Lemma create_event_db_ok (event : Event.t) :
  db_ok (with_db (create_event event) db).2.
Proof.
  rewrite create_event_run. destruct Hok as [He Hu Hc Hl Ho].
  split; cbn; try done.
  rewrite fmap_app. cbn. by apply ids_ok_snoc.
Qed.

Lemma update_event_db_ok (event_id : Z) (event : Event.t) :
  db_ok (with_db (update_event event_id event) db).2.
Proof.
  destruct (decide (has_event db event_id)) as [Hin|Hout].
  - rewrite update_event_run_found by done. destruct Hok as [He Hu Hc Hl Ho].
    split; cbn; try done.
    rewrite <- list_fmap_compose.
    erewrite list_fmap_ext; [exact He|].
    intros i e _. unfold overwrite. cbn. by case_decide.
  - by rewrite update_event_absent_snd.
Qed.

Lemma delete_event_db_ok (event_id : Z) :
  db_ok (with_db (delete_event event_id) db).2.
Proof.
  destruct (decide (has_event db event_id)) as [Hin|Hout].
  - rewrite delete_event_run_found by done. destruct Hok as [He Hu Hc Hl Ho].
    split; cbn; try done.
    eapply ids_ok_sublist; [|exact He].
    apply fmap_sublist, sublist_filter.
  - by rewrite delete_event_absent_snd.
Qed.

Lemma add_to_calendar_db_ok (data : CalendarItem.t) :
  db_ok (with_db (add_to_calendar data) db).2.
Proof.
  destruct (decide (has_user db (CalendarItem.user_id data))) as [Hu|Hu];
  [destruct (decide (has_event db (CalendarItem.event_id data))) as [He|He]|].
  - rewrite add_to_calendar_run_ok by done. destruct Hok as [? ? Hc ? Ho].
    split; cbn; try done.
    + rewrite fmap_app. cbn. by apply ids_ok_snoc.
    + apply Forall_app. split; [done|]. by apply Forall_singleton.
  - rewrite add_to_calendar_absent_snd; [done|by right].
  - rewrite add_to_calendar_absent_snd; [done|by left].
Qed.

(** Every request leaves the invariant in place. *)
Lemma serve_db_ok (req : Request) :
  db_ok (serve req db).2.
Proof.
  destruct req; cbn [serve]; rewrite ?route_snd; try done.
  - apply register_db_ok.
  - destruct (decide (credentials_match db data)) as [Hm|Hm].
    + by destruct (login_run_match db data Hm) as (u & _ & _ & _ & ->).
    + by rewrite login_run_no_match.
  - apply create_event_db_ok.
  - apply update_event_db_ok.
  - apply delete_event_db_ok.
  - apply add_to_calendar_db_ok.
  - by rewrite get_calendar_snd.
Qed.

End Preservation.

Lemma run_db_ok (reqs : list Request) (db : DB) :
  db_ok db → db_ok (run reqs db).
Proof.
  revert db. induction reqs as [|req reqs IH]; intros db Hok; [done|].
  cbn. apply IH. by apply serve_db_ok.
Qed.

(** The invariant holds in every state the service can reach. *)
Lemma reachable_db_ok (db : DB) :
  reachable db → db_ok db.
Proof. intros [reqs ->]. apply run_db_ok, db_ok_empty. Qed.

(** ** Events: update, delete, create, list *)

Section EventTable.
Variable updated : EventDB.t.

Lemma overwrite_ids (rows : list EventDB.t) :
  EventDB.id <$> (overwrite updated <$> rows) = EventDB.id <$> rows.
Proof.
  rewrite <- list_fmap_compose. apply list_fmap_ext.
  intros i e _. unfold overwrite. cbn. by case_decide.
Qed.

Lemma overwrite_lookup (rows : list EventDB.t) (e : EventDB.t) :
  e ∈ rows → EventDB.id e = EventDB.id updated →
  first (filter (λ x, EventDB.id x = EventDB.id updated) (overwrite updated <$> rows))
  = Some updated.
Proof.
  intros Hin Hid. induction rows as [|y rows IH]; [by apply not_elem_of_nil in Hin|].
  rewrite fmap_cons.
  destruct (decide (EventDB.id y = EventDB.id updated)) as [Hy|Hy].
  - assert (overwrite updated y = updated) as ->
      by (unfold overwrite; by rewrite decide_True).
    by rewrite filter_cons_True.
  - assert (overwrite updated y = y) as ->
      by (unfold overwrite; by rewrite decide_False).
    rewrite filter_cons_False by done.
    apply elem_of_cons in Hin as [->|Hin]; [done|]. by apply IH.
Qed.

Lemma overwrite_same_id (rows : list EventDB.t) (e : EventDB.t) :
  e ∈ overwrite updated <$> rows → EventDB.id e = EventDB.id updated → e = updated.
Proof.
  intros (y & -> & _)%list_elem_of_fmap. unfold overwrite.
  by case_decide.
Qed.

Lemma overwrite_other_id (rows : list EventDB.t) (e : EventDB.t) :
  EventDB.id e ≠ EventDB.id updated → e ∈ overwrite updated <$> rows ↔ e ∈ rows.
Proof.
  intros Hid. rewrite list_elem_of_fmap. unfold overwrite. split.
  - intros (y & -> & Hy). case_decide; [congruence|done].
  - intros He. exists e. by rewrite decide_False.
Qed.

End EventTable.

(** C2: updating an event.  When no stored event has the id of the path and
    the id is in the signed 64-bit range, the answer is 404 "Event not found"
    and the stored data is as before.  When one has, the answer is the event
    under the same id with name, date, time, place, description and image_url
    as submitted (whatever id the payload carried), that record is what the
    id now denotes in the table, the ids of the table are as before, and
    every record under another id, every user and every calendar entry is
    untouched.  An id outside the range, which no stored event has, ends the
    request in a server error, the stored data as before. *)
Theorem update_event_spec (db : DB) (event_id : Z) (event : Event.t) :
  (¬ has_event db event_id → int64 event_id →
     serve (PUT_events event_id event) db
     = (HTTPException 404 "Event not found", db))
  ∧ (has_event db event_id →
     let updated :=
       EventDB.mk event_id (Event.name event) (Event.date event)
         (Event.time event) (Event.place event) (Event.description event)
         (Event.image_url event) in
     ∃ db',
       serve (PUT_events event_id event) db
       = (Return (EventBody
            (Event.mk (Some event_id) (Event.name event) (Event.date event)
               (Event.time event) (Event.place event) (Event.description event)
               (Event.image_url event))), db')
       ∧ first (filter (λ e, EventDB.id e = event_id) (events db')) = Some updated
       ∧ (∀ e, e ∈ events db' → EventDB.id e = event_id → e = updated)
       ∧ EventDB.id <$> events db' = EventDB.id <$> events db
       ∧ (∀ e, EventDB.id e ≠ event_id → e ∈ events db' ↔ e ∈ events db)
       ∧ users db' = users db
       ∧ calendar db' = calendar db)
  ∧ (¬ has_event db event_id → ¬ int64 event_id →
     serve (PUT_events event_id event) db = (ServerError, db)).
Proof.
  split_and!.
  - intros Hno Hv. cbn [serve].
    by rewrite (route_run _ _ _ _ _
      (update_event_run_missing db event_id event Hno Hv)).
  - intros Hin updated. eexists. cbn [serve].
    rewrite (route_run _ _ _ _ _ (update_event_run_found db event_id event Hin)).
    destruct Hin as (e & He & Hid).
    split_and!; cbn; try done.
    + by apply (overwrite_lookup updated (events db) e).
    + intros x Hx Hxid. by apply (overwrite_same_id updated (events db)).
    + by apply overwrite_ids.
    + intros x Hx. by apply (overwrite_other_id updated).
  - intros Hno Hv. cbn [serve].
    by rewrite (route_run _ _ _ _ _
      (update_event_run_refused db event_id event Hno Hv)).
Qed.

Lemma has_event_after_delete (db : DB) (event_id : Z) :
  ¬ has_event (set_events (filter (λ row, EventDB.id row ≠ event_id)) db) event_id.
Proof.
  intros (e & He & Hid). cbn in He.
  by apply list_elem_of_filter in He as [Hne _].
Qed.

(** C8: deleting an event.  When a stored event has the id, the answer is
    the message "Event deleted", the table keeps exactly the records under
    other ids, in their order, so the id denotes nothing any more, and, the
    id being in the signed 64-bit range, asking again for the same deletion
    is answered 404 "Event not found" with the data left as it is.  When no
    stored event has the id and the id is in that range, the answer is 404
    "Event not found" and nothing changes.  An id outside the range, which no
    stored event has, ends the request in a server error, nothing changed. *)
Theorem delete_event_spec (db : DB) (event_id : Z) :
  (has_event db event_id →
     ∃ db',
       serve (DELETE_events event_id) db
       = (Return (DictBody [("message", "Event deleted")]), db')
       ∧ events db' = filter (λ e, EventDB.id e ≠ event_id) (events db)
       ∧ ¬ has_event db' event_id
       ∧ (∀ e, EventDB.id e ≠ event_id → e ∈ events db' ↔ e ∈ events db)
       ∧ (int64 event_id →
          serve (DELETE_events event_id) db'
          = (HTTPException 404 "Event not found", db')))
  ∧ (¬ has_event db event_id → int64 event_id →
     serve (DELETE_events event_id) db
     = (HTTPException 404 "Event not found", db))
  ∧ (¬ has_event db event_id → ¬ int64 event_id →
     serve (DELETE_events event_id) db = (ServerError, db)).
Proof.
  split_and!.
  - intros Hin. eexists. cbn [serve].
    rewrite (route_run _ _ _ _ _ (delete_event_run_found db event_id Hin)).
    split_and!; try done.
    + apply has_event_after_delete.
    + intros e He. cbn. rewrite list_elem_of_filter. by split; [intros [_ ?]|].
    + intros Hv. by rewrite (route_run _ _ _ _ _
        (delete_event_run_missing _ event_id
           (has_event_after_delete db event_id) Hv)).
  - intros Hno Hv. cbn [serve].
    by rewrite (route_run _ _ _ _ _ (delete_event_run_missing db event_id Hno Hv)).
  - intros Hno Hv. cbn [serve].
    by rewrite (route_run _ _ _ _ _ (delete_event_run_refused db event_id Hno Hv)).
Qed.

(** C10: deleting an event touches the events table only.  Whatever the id,
    the users table and the calendar table after the request are the ones
    before it, so every calendar entry that refers to the id is still stored
    afterwards and refers to no stored event. *)
Theorem delete_event_frame (db : DB) (event_id : Z) :
  let db' := (serve (DELETE_events event_id) db).2 in
  users db' = users db
  ∧ calendar db' = calendar db
  ∧ (∀ c, c ∈ calendar db → CalendarDB.event_id c = event_id → orphaned db' c).
Proof.
  cbn [serve]. rewrite route_snd.
  destruct (decide (has_event db event_id)) as [Hin|Hno].
  - rewrite delete_event_run_found by done. cbn.
    split_and!; [done..|]. intros c Hc Hid. split; [done|].
    rewrite Hid. apply has_event_after_delete.
  - rewrite delete_event_absent_snd by done. cbn.
    split_and!; [done..|]. intros c Hc Hid. split; [done|]. by rewrite Hid.
Qed.

(** Listing the events answers with every stored record and changes nothing. *)
Lemma get_events_serve (db : DB) :
  serve GET_events db
  = (Return (EventListBody (Event.from_attributes <$> events db)), db).
Proof.
  cbn [serve]. rewrite (route_run _ _ _ _ _ (get_events_run db)).
  cbn. by rewrite as_List_Event_rows.
Qed.

(** C7: creating and listing events.  In a state that satisfies the storage
    invariant (every reachable state does), there is an id, not 0 and not in
    use, such that whatever payload is submitted (its own id plays no part)
    the answer is the event with that id, never null, and the submitted
    name, date, time, place, description and image_url; that record is
    appended to the table, the other tables stay, and the list of events
    asked for next contains it.  Listing never fails: it answers with all
    stored events, which is the empty list when there are none. *)
Theorem create_event_spec (db : DB) :
  (db_ok db →
     ∃ new_id,
       new_id ≠ 0 ∧ ¬ has_event db new_id
       ∧ ∀ event,
           let created :=
             EventDB.mk new_id (Event.name event) (Event.date event)
               (Event.time event) (Event.place event) (Event.description event)
               (Event.image_url event) in
           let answer :=
             Event.mk (Some new_id) (Event.name event) (Event.date event)
               (Event.time event) (Event.place event) (Event.description event)
               (Event.image_url event) in
           ∃ db',
             serve (POST_events event) db = (Return (EventBody answer), db')
             ∧ events db' = events db ++ [created]
             ∧ users db' = users db
             ∧ calendar db' = calendar db
             ∧ ∃ listed,
                 serve GET_events db' = (Return (EventListBody listed), db')
                 ∧ answer ∈ listed)
  ∧ (∃ listed,
       serve GET_events db = (Return (EventListBody listed), db)
       ∧ length listed = length (events db))
  ∧ (events db = [] → serve GET_events db = (Return (EventListBody []), db)).
Proof.
  split_and!.
  - intros [[_ Hpos] _ _ _ _].
    exists (next_rowid (EventDB.id <$> events db)). split_and!.
    + apply next_rowid_pos in Hpos. lia.
    + intros Hin%has_event_ids. by apply next_rowid_fresh in Hin.
    + intros event created answer. eexists. cbn [serve].
      rewrite (route_run _ _ _ _ _ (create_event_run db event)).
      split_and!; [done..|]. eexists. split; [apply get_events_serve|].
      cbn. rewrite fmap_app. apply elem_of_app. right. cbn. by left.
  - eexists. split; [apply get_events_serve|]. by rewrite length_fmap.
  - intros Hnil. by rewrite get_events_serve, Hnil.
Qed.

(** An id is fresh among the stored ones, not among all ids ever used:
    once the newest event is deleted the next one takes its id, and a
    calendar entry left behind refers to the new event. *)
Example rowid_handed_out_again :
  serve (POST_events lecture) orphan_db
  = (Return (EventBody
       (Event.mk (Some 1) "Lecture" "2024-06-02" "10:30" "Library"
          "Public talk" "/img/lecture.png")),
     mkDB [EventDB.mk 1 "Lecture" "2024-06-02" "10:30" "Library"
             "Public talk" "/img/lecture.png"]
          [UserDB.mk 1 "alice" "secret"]
          [CalendarDB.mk 1 1 1]).
Proof. by vm_compute. Qed.

(** ** Calendar *)

(** C3: adding a calendar entry.  When the user id or the event id of the
    payload denotes no stored record and both ids are in the signed 64-bit
    range, the answer is 404 "User or Event not found" and the stored data,
    the calendar table with it, is as before.  When both denote one, the
    answer is the message "Added to calendar" and the calendar table is the
    old one followed by one new row with that user id and event id, under an
    id no older row has; events and users are untouched.  A user id or an
    event id outside the range, which denotes no stored record, ends the
    request in a server error, the stored data as before. *)
Theorem add_to_calendar_spec (db : DB) (data : CalendarItem.t) :
  (¬ has_user db (CalendarItem.user_id data)
   ∨ ¬ has_event db (CalendarItem.event_id data) →
   int64 (CalendarItem.user_id data) → int64 (CalendarItem.event_id data) →
     serve (POST_calendar data) db
     = (HTTPException 404 "User or Event not found", db))
  ∧ (has_user db (CalendarItem.user_id data) →
     has_event db (CalendarItem.event_id data) →
     ∃ item db',
       serve (POST_calendar data) db
       = (Return (DictBody [("message", "Added to calendar")]), db')
       ∧ calendar db' = calendar db ++ [item]
       ∧ CalendarDB.user_id item = CalendarItem.user_id data
       ∧ CalendarDB.event_id item = CalendarItem.event_id data
       ∧ (CalendarDB.id item ∉ CalendarDB.id <$> calendar db)
       ∧ events db' = events db
       ∧ users db' = users db)
  ∧ ((¬ has_user db (CalendarItem.user_id data)
      ∧ ¬ int64 (CalendarItem.user_id data))
     ∨ (¬ has_event db (CalendarItem.event_id data)
        ∧ ¬ int64 (CalendarItem.event_id data)) →
     serve (POST_calendar data) db = (ServerError, db)).
Proof.
  split_and!.
  - intros Hno Hvu Hve. cbn [serve].
    rewrite (route_run _ _ _ _ _
      (add_to_calendar_run_missing db data Hno (or_intror Hvu) (or_intror Hve))).
    done.
  - intros Hu He. do 2 eexists. cbn [serve].
    rewrite (route_run _ _ _ _ _ (add_to_calendar_run_ok db data Hu He)).
    split_and!; try done. cbn. apply next_rowid_fresh.
  - intros Hno. cbn [serve].
    by rewrite (route_run _ _ _ _ _ (add_to_calendar_run_refused db data Hno)).
Qed.

(** C9: the same calendar entry can be added twice.  When the user and the
    event of the payload are stored, two requests in a row with that payload
    are both answered "Added to calendar", and the calendar table ends with
    two rows of that user id and event id whose ids differ. *)
Theorem add_to_calendar_twice (db : DB) (data : CalendarItem.t) :
  has_user db (CalendarItem.user_id data) →
  has_event db (CalendarItem.event_id data) →
  ∃ r1 r2 db1 db2,
    serve (POST_calendar data) db
    = (Return (DictBody [("message", "Added to calendar")]), db1)
    ∧ serve (POST_calendar data) db1
      = (Return (DictBody [("message", "Added to calendar")]), db2)
    ∧ calendar db2 = calendar db ++ [r1; r2]
    ∧ CalendarDB.id r1 ≠ CalendarDB.id r2
    ∧ CalendarDB.user_id r1 = CalendarItem.user_id data
    ∧ CalendarDB.event_id r1 = CalendarItem.event_id data
    ∧ CalendarDB.user_id r2 = CalendarItem.user_id data
    ∧ CalendarDB.event_id r2 = CalendarItem.event_id data.
Proof.
  intros Hu He. do 4 eexists. cbn [serve].
  rewrite (route_run _ _ _ _ _ (add_to_calendar_run_ok db data Hu He)).
  split; [done|].
  rewrite (route_run _ _ _ _ _
    (add_to_calendar_run_ok (set_calendar _ db) data Hu He)).
  split; [done|]. cbn. rewrite <- app_assoc. split_and!; try done.
  pose proof (next_rowid_gt
    (CalendarDB.id <$> (calendar db ++
       [CalendarDB.mk (next_rowid (CalendarDB.id <$> calendar db))
          (CalendarItem.user_id data) (CalendarItem.event_id data)]))
    (next_rowid (CalendarDB.id <$> calendar db))) as Hgt.
  cbn in Hgt |- *. intros Heq. rewrite <- Heq in Hgt.
  apply Z.lt_irrefl in Hgt; [done|].
  rewrite fmap_app. apply elem_of_app. right. cbn. by left.
Qed.

Section GetCalendar.
Variables (db : DB) (user_id : Z).

(** The answer of the route when every lookup gave a row. *)
Lemma get_calendar_serve_Return (body : Body) :
  filter (λ c, CalendarDB.user_id c = user_id) (calendar db) ≠ [] ∨ int64 user_id →
  as_List_Event
    ((λ item, first (filter (λ e, EventDB.id e = CalendarDB.event_id item)
                       (events db)))
       <$> filter (λ c, CalendarDB.user_id c = user_id) (calendar db))
  = Some body →
  serve (GET_calendar user_id) db = (Return body, db).
Proof.
  intros Hrange Hbody. cbn [serve].
  destruct (get_calendar_cases db user_id)
    as [[Hrun _]|[_ [[Hnil Hv]|(c & Hc & Hno & _)]]].
  - rewrite (route_run _ _ _ _ _ Hrun). cbn. by rewrite Hbody.
  - by destruct Hrange.
  - rewrite as_List_Event_None in Hbody; [done|].
    apply list_elem_of_fmap. exists c. split; [|done].
    symmetry. apply first_filter_None. intros e He Hid. apply Hno. by exists e.
Qed.

Lemma get_calendar_serve_Return_inv (body : Body) (db' : DB) :
  serve (GET_calendar user_id) db = (Return body, db') →
  (filter (λ c, CalendarDB.user_id c = user_id) (calendar db) ≠ []
   ∨ int64 user_id)
  ∧ as_List_Event
      ((λ item, first (filter (λ e, EventDB.id e = CalendarDB.event_id item)
                         (events db)))
         <$> filter (λ c, CalendarDB.user_id c = user_id) (calendar db))
    = Some body.
Proof.
  cbn [serve].
  destruct (get_calendar_cases db user_id) as [[Hrun Hrange]|[Hrun _]];
    rewrite (route_run _ _ _ _ _ Hrun); cbn; [|done].
  destruct (as_List_Event _) as [b|]; [|done]. intros [= -> _]. done.
Qed.

(** X17: the calendar when nothing is orphaned.  When the user id is in the
    signed 64-bit range and every calendar entry of the user refers to a
    stored event, the answer has one event per entry of the user, in the
    order of the entries, each the full record of a stored event with the id
    the entry names; the data is left as it is. *)
Lemma get_calendar_all_found :
  int64 user_id →
  (∀ c, c ∈ calendar db → CalendarDB.user_id c = user_id →
        has_event db (CalendarDB.event_id c)) →
  ∃ rows,
    serve (GET_calendar user_id) db
    = (Return (EventListBody (Event.from_attributes <$> rows)), db)
    ∧ Forall2 (λ c e, e ∈ events db ∧ EventDB.id e = CalendarDB.event_id c)
        (filter (λ c, CalendarDB.user_id c = user_id) (calendar db)) rows.
Proof.
  intros Hv Hall.
  assert (∃ rows,
    as_List_Event
      ((λ item, first (filter (λ e, EventDB.id e = CalendarDB.event_id item)
                         (events db)))
         <$> filter (λ c, CalendarDB.user_id c = user_id) (calendar db))
    = Some (EventListBody (Event.from_attributes <$> rows))
    ∧ Forall2 (λ c e, e ∈ events db ∧ EventDB.id e = CalendarDB.event_id c)
        (filter (λ c, CalendarDB.user_id c = user_id) (calendar db)) rows)
    as (rows & Hbody & Hrel).
  { set (entries := filter (λ c, CalendarDB.user_id c = user_id) (calendar db)).
    assert (∀ c, c ∈ entries → has_event db (CalendarDB.event_id c)) as Hent.
    { intros c [Hu Hc]%list_elem_of_filter. by apply Hall. }
    clear Hall. induction entries as [|c rest IH].
    - exists []. by split; [|constructor].
    - destruct IH as (rows & Hrows & Hrel).
      { intros c' Hc'. apply Hent. by right. }
      destruct (Hent c) as (e & He & Hid); [by left|].
      destruct (first_filter_found (λ e, EventDB.id e = CalendarDB.event_id c)
                  (events db) e He Hid) as (y & Hy & Hyin & Hyid).
      exists (y :: rows). split; [|by constructor].
      rewrite fmap_cons, Hy.
      unfold as_List_Event in *. cbn in *.
      destruct (mapM _ _) as [l|]; [|done]. cbn in *. congruence. }
  exists rows. split; [|done].
  apply get_calendar_serve_Return; [by right|done].
Qed.

(** An entry of the user whose event is gone makes the request fail. *)
Lemma get_calendar_orphan (c : CalendarDB.t) :
  orphaned db c → CalendarDB.user_id c = user_id →
  serve (GET_calendar user_id) db = (ServerError, db).
Proof.
  intros [Hc Hno] Hu. cbn [serve].
  destruct (get_calendar_cases db user_id) as [[Hrun _]|[Hrun _]];
    rewrite (route_run _ _ _ _ _ Hrun); [|done]. cbn.
  rewrite as_List_Event_None; [done|].
  apply list_elem_of_fmap. exists c. split.
  - symmetry. apply first_filter_None. intros e He Hid. apply Hno. by exists e.
  - by apply list_elem_of_filter.
Qed.

(** Without entries of the user the answer is the empty list, for an id the
    engine can hold. *)
Lemma get_calendar_no_entries :
  int64 user_id →
  (∀ c, c ∈ calendar db → CalendarDB.user_id c ≠ user_id) →
  serve (GET_calendar user_id) db = (Return (EventListBody []), db).
Proof.
  intros Hv Hnone. apply get_calendar_serve_Return; [by right|].
  assert (filter (λ c, CalendarDB.user_id c = user_id) (calendar db) = []) as ->.
  { apply head_None. by apply first_filter_None. }
  done.
Qed.

(** Without entries of the user, an id outside the range is refused. *)
Lemma get_calendar_refused :
  ¬ int64 user_id →
  (∀ c, c ∈ calendar db → CalendarDB.user_id c ≠ user_id) →
  serve (GET_calendar user_id) db = (ServerError, db).
Proof.
  intros Hv Hnone. cbn [serve].
  destruct (get_calendar_cases db user_id) as [[_ [Hcons|Hin]]|[Hrun _]].
  - exfalso. apply Hcons. apply head_None. by apply first_filter_None.
  - done.
  - by rewrite (route_run _ _ _ _ _ Hrun).
Qed.

(** An id that denotes no user has no entries. *)
Lemma get_calendar_unknown_user :
  db_ok db → int64 user_id → ¬ has_user db user_id →
  serve (GET_calendar user_id) db = (Return (EventListBody []), db).
Proof.
  intros [_ _ _ _ Hown] Hv Hno. apply get_calendar_no_entries; [done|].
  intros c Hc Hu. rewrite Forall_forall in Hown.
  apply Hno. rewrite <- Hu. by apply Hown.
Qed.

End GetCalendar.

(** C1: the calendar of a user whose saved event was deleted.  After a user
    registers, an event is created, the user saves it and the event is
    deleted, the calendar entry is still stored; [get_calendar] for that user
    returns a one-element list holding [None], which is no Event, and the
    route, declared with [response_model=List[Event]], fails with a server
    error instead of answering with a sequence of events. *)
Theorem get_calendar_orphan_fault :
  reachable orphan_db
  ∧ has_user orphan_db 1
  ∧ calendar orphan_db = [CalendarDB.mk 1 1 1]
  ∧ events orphan_db = []
  ∧ with_db (get_calendar 1) orphan_db = (Return [None], orphan_db)
  ∧ serve (GET_calendar 1) orphan_db = (ServerError, orphan_db).
Proof.
  split; [by exists orphan_history|].
  split; [by apply (bool_decide_unpack _)|].
  by vm_compute.
Qed.

(** ** Users *)

(** Only a successful registration changes the users table, and it appends
    one row with a login not yet taken. *)
Lemma serve_users (req : Request) (db : DB) :
  users (serve req db).2 = users db
  ∨ ∃ data uid,
      req = POST_register data
      ∧ ¬ login_taken db (RegisterRequest.login data)
      ∧ users (serve req db).2
        = users db ++ [UserDB.mk uid (RegisterRequest.login data)
                         (RegisterRequest.password data)].
Proof.
  destruct req; cbn [serve]; rewrite ?route_snd; try by left.
  - destruct (decide (login_taken db (RegisterRequest.login data))) as [Ht|Hf].
    + left. by rewrite register_run_taken.
    + right. exists data. eexists. rewrite register_run_new by done. done.
  - left. destruct (decide (credentials_match db data)) as [Hm|Hm].
    + by destruct (login_run_match db data Hm) as (u & _ & _ & _ & ->).
    + by rewrite login_run_no_match.
  - left. by rewrite create_event_run.
  - left. destruct (decide (has_event db event_id)) as [Hin|Hno].
    + by rewrite update_event_run_found.
    + by rewrite update_event_absent_snd.
  - left. destruct (decide (has_event db event_id)) as [Hin|Hno].
    + by rewrite delete_event_run_found.
    + by rewrite delete_event_absent_snd.
  - left.
    destruct (decide (has_user db (CalendarItem.user_id data))) as [Hu|Hu];
    [destruct (decide (has_event db (CalendarItem.event_id data))) as [He|He]|].
    + by rewrite add_to_calendar_run_ok.
    + rewrite add_to_calendar_absent_snd; [done|by right].
    + rewrite add_to_calendar_absent_snd; [done|by left].
  - left. by rewrite get_calendar_snd.
Qed.

Lemma serve_logins_unique (req : Request) (db : DB) :
  NoDup (UserDB.login <$> users db) →
  NoDup (UserDB.login <$> users (serve req db).2).
Proof.
  intros Hnd.
  destruct (serve_users req db) as [->|(data & uid & _ & Hfree & ->)]; [done|].
  rewrite fmap_app. cbn. apply NoDup_app. split_and!; [done| |apply NoDup_singleton].
  intros l Hin ->%list_elem_of_singleton. by apply Hfree, login_taken_logins.
Qed.

Lemma login_taken_snoc (db : DB) (u : UserDB.t) :
  login_taken (set_users (λ rows, rows ++ [u]) db) (UserDB.login u).
Proof.
  exists u. split; [|done]. cbn. apply elem_of_app. right. by left.
Qed.

(** The uniqueness constraint of the table is never what stops a
    registration: the handler has looked the login up before it inserts. *)
Lemma register_never_faults (db : DB) (data : RegisterRequest.t) :
  (serve (POST_register data) db).1 ≠ ServerError.
Proof.
  cbn [serve]. rewrite route_fst.
  destruct (decide (login_taken db (RegisterRequest.login data))) as [Ht|Hf].
  - by rewrite register_run_taken.
  - by rewrite register_run_new.
Qed.

(** C4: registering a login twice, and the uniqueness of logins.  When no
    stored user has the login, registering it is answered with the new user,
    its id and that login, and appends the user; registering the same login
    again, with any password, is answered 400 "User already exists" and
    leaves the data as it is.  Distinctness of the stored logins survives
    every request, and it holds in every state reached from the empty
    database. *)
Theorem register_spec (db : DB) (l p p' : string) :
  (¬ login_taken db l →
     ∃ uid db1,
       serve (POST_register (RegisterRequest.mk l p)) db
       = (Return (UserBody (User.mk uid l)), db1)
       ∧ users db1 = users db ++ [UserDB.mk uid l p]
       ∧ serve (POST_register (RegisterRequest.mk l p')) db1
         = (HTTPException 400 "User already exists", db1))
  ∧ (NoDup (UserDB.login <$> users db) →
     ∀ req, NoDup (UserDB.login <$> users (serve req db).2))
  ∧ (reachable db → NoDup (UserDB.login <$> users db)).
Proof.
  split_and!.
  - intros Hfree. do 2 eexists. cbn [serve].
    rewrite (route_run _ _ _ _ _
      (register_run_new db (RegisterRequest.mk l p) Hfree)).
    split_and!; try done.
    by rewrite (route_run _ _ _ _ _
      (register_run_taken _ (RegisterRequest.mk l p')
         (login_taken_snoc db (UserDB.mk _ l p)))).
  - intros Hnd req. by apply serve_logins_unique.
  - intros Hreach. by apply reachable_db_ok in Hreach as [_ _ _ ? _].
Qed.

(** C5: logging in.  The stored data is never changed.  The answer is a user
    exactly when some stored user has the submitted login and the submitted
    password; it is then such a user's id with the submitted login.  In every
    other case, a wrong password or an unknown login, the answer is 401
    "Invalid login or password". *)
Theorem login_spec (db : DB) (data : LoginRequest.t) :
  (serve (POST_login data) db).2 = db
  ∧ ((∃ body, (serve (POST_login data) db).1 = Return body)
     ↔ credentials_match db data)
  ∧ (credentials_match db data →
     ∃ u, u ∈ users db
          ∧ UserDB.login u = LoginRequest.login data
          ∧ UserDB.password u = LoginRequest.password data
          ∧ (serve (POST_login data) db).1
            = Return (UserBody (User.mk (UserDB.id u) (LoginRequest.login data))))
  ∧ (¬ credentials_match db data →
     (serve (POST_login data) db).1
     = HTTPException 401 "Invalid login or password").
Proof.
  cbn [serve]. rewrite route_fst, route_snd.
  destruct (decide (credentials_match db data)) as [Hm|Hm].
  - destruct (login_run_match db data Hm) as (u & Hu & Hl & Hp & ->). cbn.
    split_and!; [done| |intros _|done].
    + split; [done|]. intros _. by eexists.
    + exists u. unfold User.from_attributes. by rewrite Hl.
  - rewrite login_run_no_match by done. cbn.
    split_and!; [done| |done|done].
    split; [by intros [? ?]|done].
Qed.

(** ** Settings *)

(** C6: the settings stubs.  For every user id, asking for the settings is
    answered with theme "light" and notifications true, in any state and
    after any sequence of requests, settings updates among them.  An update
    is answered with the submitted settings, each key that was left out
    standing at its default (so theme "dark" alone comes back with
    notifications true); it stores nothing, and the settings asked for next
    are the defaults again. *)
Theorem settings_spec (db : DB) (user_id : Z) :
  serve (GET_settings user_id) db
  = (Return (SettingsBody (UserSettings.mk (Some "light") (Some true))), db)
  ∧ (∀ reqs,
       (serve (GET_settings user_id) (run reqs db)).1
       = Return (SettingsBody (UserSettings.mk (Some "light") (Some true))))
  ∧ (∀ other theme notifications,
       serve (PUT_settings other (UserSettings.mk_body theme notifications)) db
       = (Return (SettingsBody (UserSettings.mk
            match theme with absent => Some "light" | given v => v end
            match notifications with absent => Some true | given v => v end)),
          db))
  ∧ (∀ other,
       serve (PUT_settings other
                (UserSettings.mk_body (given (Some "dark")) absent)) db
       = (Return (SettingsBody (UserSettings.mk (Some "dark") (Some true))), db))
  ∧ (∀ other settings,
       serve (GET_settings user_id) (serve (PUT_settings other settings) db).2
       = (Return (SettingsBody (UserSettings.mk (Some "light") (Some true))), db)).
Proof.
  split_and!; done.
Qed.

(** ** The theorems at the sample states *)

Lemma update_event_spec_witness :
  (¬ has_event booked_db 9999 ∧ int64 9999
   ∧ serve (PUT_events 9999 lecture) booked_db
     = (HTTPException 404 "Event not found", booked_db))
  ∧ (has_event booked_db 1
     ∧ ∃ db',
         serve (PUT_events 1 lecture) booked_db
         = (Return (EventBody
              (Event.mk (Some 1) "Lecture" "2024-06-02" "10:30" "Library"
                 "Public talk" "/img/lecture.png")), db')
         ∧ first (filter (λ e, EventDB.id e = 1) (events db'))
           = Some (EventDB.mk 1 "Lecture" "2024-06-02" "10:30" "Library"
                     "Public talk" "/img/lecture.png")
         ∧ users db' = users booked_db
         ∧ calendar db' = calendar booked_db)
  ∧ (¬ has_event booked_db 9223372036854775808
     ∧ ¬ int64 9223372036854775808
     ∧ serve (PUT_events 9223372036854775808 lecture) booked_db
       = (ServerError, booked_db)).
Proof.
  assert (¬ has_event booked_db 9999) as Hno by by_computation.
  assert (int64 9999) as Hv by by_computation.
  assert (has_event booked_db 1) as Hin by by_computation.
  assert (¬ has_event booked_db 9223372036854775808) as Hno' by by_computation.
  assert (¬ int64 9223372036854775808) as Hv' by by_computation.
  split; [|split].
  - split; [exact Hno|]. split; [exact Hv|].
    exact (proj1 (update_event_spec booked_db 9999 lecture) Hno Hv).
  - split; [exact Hin|].
    destruct (proj1 (proj2 (update_event_spec booked_db 1 lecture)) Hin)
      as (db' & Hs & Hf & _ & _ & _ & Hu & Hc).
    exists db'. repeat split; assumption.
  - split; [exact Hno'|]. split; [exact Hv'|].
    exact (proj2 (proj2 (update_event_spec booked_db 9223372036854775808 lecture))
             Hno' Hv').
Defined.

Lemma add_to_calendar_spec_witness :
  ((¬ has_user booked_db 1 ∨ ¬ has_event booked_db 9999)
   ∧ int64 1 ∧ int64 9999
   ∧ serve (POST_calendar (CalendarItem.mk 1 9999)) booked_db
     = (HTTPException 404 "User or Event not found", booked_db))
  ∧ (has_user booked_db 1 ∧ has_event booked_db 1
     ∧ ∃ item db',
         serve (POST_calendar (CalendarItem.mk 1 1)) booked_db
         = (Return (DictBody [("message", "Added to calendar")]), db')
         ∧ calendar db' = calendar booked_db ++ [item]
         ∧ CalendarDB.user_id item = 1
         ∧ CalendarDB.event_id item = 1)
  ∧ (((¬ has_user booked_db 1 ∧ ¬ int64 1)
      ∨ (¬ has_event booked_db 9223372036854775808
         ∧ ¬ int64 9223372036854775808))
     ∧ serve (POST_calendar (CalendarItem.mk 1 9223372036854775808)) booked_db
       = (ServerError, booked_db)).
Proof.
  assert (¬ has_user booked_db 1 ∨ ¬ has_event booked_db 9999) as Hno.
  { right. by_computation. }
  assert (int64 1) as Hv1 by by_computation.
  assert (int64 9999) as Hv2 by by_computation.
  assert (has_user booked_db 1) as Hu by by_computation.
  assert (has_event booked_db 1) as He by by_computation.
  assert ((¬ has_user booked_db 1 ∧ ¬ int64 1)
          ∨ (¬ has_event booked_db 9223372036854775808
             ∧ ¬ int64 9223372036854775808)) as Hout.
  { right. split; by_computation. }
  split; [|split].
  - split; [exact Hno|]. split; [exact Hv1|]. split; [exact Hv2|].
    exact (proj1 (add_to_calendar_spec booked_db (CalendarItem.mk 1 9999))
             Hno Hv1 Hv2).
  - split; [exact Hu|]. split; [exact He|].
    destruct (proj1 (proj2 (add_to_calendar_spec booked_db (CalendarItem.mk 1 1)))
                Hu He)
      as (item & db' & Hs & Hc & Hui & Hei & _).
    exists item, db'. repeat split; assumption.
  - split; [exact Hout|].
    exact (proj2 (proj2 (add_to_calendar_spec booked_db
                           (CalendarItem.mk 1 9223372036854775808))) Hout).
Defined.

Lemma register_spec_witness :
  (¬ login_taken empty_db "alice"
   ∧ ∃ uid db1,
       serve (POST_register (RegisterRequest.mk "alice" "secret")) empty_db
       = (Return (UserBody (User.mk uid "alice")), db1)
       ∧ serve (POST_register (RegisterRequest.mk "alice" "other")) db1
         = (HTTPException 400 "User already exists", db1))
  ∧ (NoDup (UserDB.login <$> users booked_db)
     ∧ NoDup (UserDB.login <$> users (serve (POST_register alice) booked_db).2))
  ∧ (reachable booked_db ∧ NoDup (UserDB.login <$> users booked_db)).
Proof.
  assert (¬ login_taken empty_db "alice") as Hfree by by_computation.
  assert (NoDup (UserDB.login <$> users booked_db)) as Hnd by by_computation.
  assert (reachable booked_db) as Hreach by (exists booked_history; reflexivity).
  split; [|split].
  - split; [exact Hfree|].
    destruct (proj1 (register_spec empty_db "alice" "secret" "other") Hfree)
      as (uid & db1 & Hs & _ & Hs').
    exists uid, db1. split; assumption.
  - split; [exact Hnd|].
    exact (proj1 (proj2 (register_spec booked_db "alice" "secret" "other"))
             Hnd (POST_register alice)).
  - split; [exact Hreach|].
    exact (proj2 (proj2 (register_spec booked_db "alice" "secret" "other")) Hreach).
Defined.

Lemma login_spec_witness :
  (credentials_match booked_db (RegisterRequest.mk "alice" "secret")
   ∧ ∃ u, u ∈ users booked_db
          ∧ (serve (POST_login (RegisterRequest.mk "alice" "secret")) booked_db).1
            = Return (UserBody (User.mk (UserDB.id u) "alice")))
  ∧ (¬ credentials_match booked_db (RegisterRequest.mk "alice" "guess")
     ∧ (serve (POST_login (RegisterRequest.mk "alice" "guess")) booked_db).1
       = HTTPException 401 "Invalid login or password")
  ∧ (¬ credentials_match booked_db (RegisterRequest.mk "bob" "secret")
     ∧ (serve (POST_login (RegisterRequest.mk "bob" "secret")) booked_db).1
       = HTTPException 401 "Invalid login or password").
Proof.
  assert (credentials_match booked_db (RegisterRequest.mk "alice" "secret"))
    as Hm by by_computation.
  assert (¬ credentials_match booked_db (RegisterRequest.mk "alice" "guess"))
    as Hpw by by_computation.
  assert (¬ credentials_match booked_db (RegisterRequest.mk "bob" "secret"))
    as Hlg by by_computation.
  split; [|split]; (split; [assumption|]).
  - destruct (login_spec booked_db (RegisterRequest.mk "alice" "secret"))
      as (_ & _ & Hyes & _).
    destruct (Hyes Hm) as (u & Hu & _ & _ & Hs). exists u. split; assumption.
  - destruct (login_spec booked_db (RegisterRequest.mk "alice" "guess"))
      as (_ & _ & _ & Hnot). exact (Hnot Hpw).
  - destruct (login_spec booked_db (RegisterRequest.mk "bob" "secret"))
      as (_ & _ & _ & Hnot). exact (Hnot Hlg).
Defined.

Lemma create_event_spec_witness :
  db_ok booked_db
  ∧ (∃ new_id,
       new_id ≠ 0 ∧ ¬ has_event booked_db new_id
       ∧ ∃ db',
           serve (POST_events lecture) booked_db
           = (Return (EventBody
                (Event.mk (Some new_id) "Lecture" "2024-06-02" "10:30" "Library"
                   "Public talk" "/img/lecture.png")), db'))
  ∧ (events empty_db = []
     ∧ serve GET_events empty_db = (Return (EventListBody []), empty_db)).
Proof.
  assert (db_ok booked_db) as Hok.
  { apply reachable_db_ok. exists booked_history. reflexivity. }
  split; [exact Hok|]. split.
  - destruct (proj1 (create_event_spec booked_db) Hok)
      as (new_id & Hnz & Hfresh & Hall).
    exists new_id. split; [exact Hnz|]. split; [exact Hfresh|].
    destruct (Hall lecture) as (db' & Hs & _). exists db'. exact Hs.
  - split; [reflexivity|].
    exact (proj2 (proj2 (create_event_spec empty_db)) eq_refl).
Defined.

Lemma delete_event_spec_witness :
  (has_event booked_db 1 ∧ int64 1
   ∧ ∃ db',
       serve (DELETE_events 1) booked_db
       = (Return (DictBody [("message", "Event deleted")]), db')
       ∧ serve (DELETE_events 1) db'
         = (HTTPException 404 "Event not found", db'))
  ∧ (¬ has_event booked_db 9999 ∧ int64 9999
     ∧ serve (DELETE_events 9999) booked_db
       = (HTTPException 404 "Event not found", booked_db))
  ∧ (¬ has_event booked_db 9223372036854775808
     ∧ ¬ int64 9223372036854775808
     ∧ serve (DELETE_events 9223372036854775808) booked_db
       = (ServerError, booked_db)).
Proof.
  assert (has_event booked_db 1) as Hin by by_computation.
  assert (int64 1) as Hv1 by by_computation.
  assert (¬ has_event booked_db 9999) as Hno by by_computation.
  assert (int64 9999) as Hv by by_computation.
  assert (¬ has_event booked_db 9223372036854775808) as Hno' by by_computation.
  assert (¬ int64 9223372036854775808) as Hv' by by_computation.
  split; [|split].
  - split; [exact Hin|]. split; [exact Hv1|].
    destruct (proj1 (delete_event_spec booked_db 1) Hin)
      as (db' & Hs & _ & _ & _ & Hs').
    exists db'. split; [exact Hs|exact (Hs' Hv1)].
  - split; [exact Hno|]. split; [exact Hv|].
    exact (proj1 (proj2 (delete_event_spec booked_db 9999)) Hno Hv).
  - split; [exact Hno'|]. split; [exact Hv'|].
    exact (proj2 (proj2 (delete_event_spec booked_db 9223372036854775808))
             Hno' Hv').
Defined.

(** ** Ids outside the 64-bit range *)

(** C2 without the range condition: no event has the id 2^63, yet the update
    is not answered 404; it ends in a server error. *)
Lemma update_event_out_of_range :
  ¬ has_event booked_db 9223372036854775808
  ∧ serve (PUT_events 9223372036854775808 lecture) booked_db
    = (ServerError, booked_db)
  ∧ serve (PUT_events 9223372036854775808 lecture) booked_db
    ≠ (HTTPException 404 "Event not found", booked_db).
Proof.
  split; [by_computation|]. split; [by vm_compute|].
  vm_compute. discriminate.
Qed.

(** C8 without the range condition: no event has the id 2^63, yet the
    deletion is not answered 404; it ends in a server error. *)
Lemma delete_event_out_of_range :
  ¬ has_event booked_db 9223372036854775808
  ∧ serve (DELETE_events 9223372036854775808) booked_db
    = (ServerError, booked_db)
  ∧ serve (DELETE_events 9223372036854775808) booked_db
    ≠ (HTTPException 404 "Event not found", booked_db).
Proof.
  split; [by_computation|]. split; [by vm_compute|].
  vm_compute. discriminate.
Qed.

(** C3 without the range condition: the event id 2^63 denotes no record, yet
    the request is not answered 404; it ends in a server error. *)
Lemma add_to_calendar_out_of_range :
  ¬ has_event booked_db 9223372036854775808
  ∧ serve (POST_calendar (CalendarItem.mk 1 9223372036854775808)) booked_db
    = (ServerError, booked_db)
  ∧ serve (POST_calendar (CalendarItem.mk 1 9223372036854775808)) booked_db
    ≠ (HTTPException 404 "User or Event not found", booked_db).
Proof.
  split; [by_computation|]. split; [by vm_compute|].
  vm_compute. discriminate.
Qed.

Lemma add_to_calendar_twice_witness :
  has_user booked_db 1 ∧ has_event booked_db 1
  ∧ ∃ r1 r2 db1 db2,
      serve (POST_calendar (CalendarItem.mk 1 1)) booked_db
      = (Return (DictBody [("message", "Added to calendar")]), db1)
      ∧ serve (POST_calendar (CalendarItem.mk 1 1)) db1
        = (Return (DictBody [("message", "Added to calendar")]), db2)
      ∧ calendar db2 = calendar booked_db ++ [r1; r2]
      ∧ CalendarDB.id r1 ≠ CalendarDB.id r2.
Proof.
  assert (has_user booked_db 1) as Hu by by_computation.
  assert (has_event booked_db 1) as He by by_computation.
  split; [exact Hu|]. split; [exact He|].
  destruct (add_to_calendar_twice booked_db (CalendarItem.mk 1 1) Hu He)
    as (r1 & r2 & db1 & db2 & H1 & H2 & Hc & Hne & _).
  exists r1, r2, db1, db2. repeat split; assumption.
Defined.

Lemma delete_event_frame_witness :
  CalendarDB.mk 1 1 1 ∈ calendar booked_db
  ∧ orphaned (serve (DELETE_events 1) booked_db).2 (CalendarDB.mk 1 1 1).
Proof.
  assert (CalendarDB.mk 1 1 1 ∈ calendar booked_db) as Hc.
  { vm_compute. left. }
  split; [exact Hc|].
  destruct (delete_event_frame booked_db 1) as (_ & _ & Horphan).
  exact (Horphan (CalendarDB.mk 1 1 1) Hc eq_refl).
Defined.

(** * Further properties of the handlers *)

(** ** How one request changes each table *)

Lemma serve_calendar (req : Request) (db : DB) :
  calendar (serve req db).2 = calendar db
  ∨ ∃ data,
      req = POST_calendar data
      ∧ has_user db (CalendarItem.user_id data)
      ∧ has_event db (CalendarItem.event_id data)
      ∧ calendar (serve req db).2
        = calendar db ++ [CalendarDB.mk (next_rowid (CalendarDB.id <$> calendar db))
                            (CalendarItem.user_id data) (CalendarItem.event_id data)].
Proof.
  destruct req; cbn [serve]; rewrite ?route_snd; try by left.
  - left. destruct (decide (login_taken db (RegisterRequest.login data))) as [Ht|Hf].
    + by rewrite register_run_taken.
    + by rewrite register_run_new.
  - left. destruct (decide (credentials_match db data)) as [Hm|Hm].
    + by destruct (login_run_match db data Hm) as (u & _ & _ & _ & ->).
    + by rewrite login_run_no_match.
  - left. by rewrite create_event_run.
  - left. destruct (decide (has_event db event_id)) as [Hin|Hno].
    + by rewrite update_event_run_found.
    + by rewrite update_event_absent_snd.
  - left. destruct (decide (has_event db event_id)) as [Hin|Hno].
    + by rewrite delete_event_run_found.
    + by rewrite delete_event_absent_snd.
  - destruct (decide (has_user db (CalendarItem.user_id data))) as [Hu|Hu];
    [destruct (decide (has_event db (CalendarItem.event_id data))) as [He|He]|].
    + right. exists data. by rewrite add_to_calendar_run_ok.
    + left. rewrite add_to_calendar_absent_snd; [done|by right].
    + left. rewrite add_to_calendar_absent_snd; [done|by left].
  - left. by rewrite get_calendar_snd.
Qed.

(** The four ways a request can leave the events table. *)
Lemma serve_events (req : Request) (db : DB) :
  events (serve req db).2 = events db
  ∨ (∃ new, EventDB.id new = next_rowid (EventDB.id <$> events db)
            ∧ events (serve req db).2 = events db ++ [new])
  ∨ (∃ updated, events (serve req db).2 = overwrite updated <$> events db)
  ∨ (∃ event_id,
       events (serve req db).2 = filter (λ e, EventDB.id e ≠ event_id) (events db)).
Proof.
  destruct req; cbn [serve]; rewrite ?route_snd; try by left.
  - left. destruct (decide (login_taken db (RegisterRequest.login data))) as [Ht|Hf].
    + by rewrite register_run_taken.
    + by rewrite register_run_new.
  - left. destruct (decide (credentials_match db data)) as [Hm|Hm].
    + by destruct (login_run_match db data Hm) as (u & _ & _ & _ & ->).
    + by rewrite login_run_no_match.
  - right. left. rewrite create_event_run. eexists. split; [|done]. done.
  - destruct (decide (has_event db event_id)) as [Hin|Hno].
    + do 2 right. left. rewrite update_event_run_found by done. by eexists.
    + left. by rewrite update_event_absent_snd.
  - destruct (decide (has_event db event_id)) as [Hin|Hno].
    + do 3 right. rewrite delete_event_run_found by done. by eexists.
    + left. by rewrite delete_event_absent_snd.
  - left.
    destruct (decide (has_user db (CalendarItem.user_id data))) as [Hu|Hu];
    [destruct (decide (has_event db (CalendarItem.event_id data))) as [He|He]|].
    + by rewrite add_to_calendar_run_ok.
    + rewrite add_to_calendar_absent_snd; [done|by right].
    + rewrite add_to_calendar_absent_snd; [done|by left].
  - left. by rewrite get_calendar_snd.
Qed.


Lemma serve_users_rowid (req : Request) (db : DB) :
  users (serve req db).2 = users db
  ∨ ∃ data,
      req = POST_register data
      ∧ ¬ login_taken db (RegisterRequest.login data)
      ∧ users (serve req db).2
        = users db ++ [UserDB.mk (next_rowid (UserDB.id <$> users db))
                         (RegisterRequest.login data)
                         (RegisterRequest.password data)].
Proof.
  destruct (serve_users req db) as [Hsame|(data & uid & -> & Hfree & _)]; [by left|].
  right. exists data. split_and!; [done..|].
  cbn [serve]. rewrite route_snd. by rewrite register_run_new.
Qed.

(** A property kept by every request holds after any sequence of them. *)
Lemma run_invariant (I : DB → Prop) :
  (∀ db req, I db → I (serve req db).2) →
  ∀ reqs db, I db → I (run reqs db).
Proof.
  intros Hstep reqs. induction reqs as [|req reqs IH]; intros db HI; [done|].
  cbn. apply IH. by apply Hstep.
Qed.

(** ** Order of the rows *)

Lemma sorted_snoc (ids : list Z) :
  StronglySorted Z.lt ids → StronglySorted Z.lt (ids ++ [next_rowid ids]).
Proof.
  intros Hs. apply StronglySorted_app. split_and!; [|done|repeat constructor].
  intros i j Hi ->%list_elem_of_singleton. by apply next_rowid_gt.
Qed.

Lemma sorted_sublist (ids ids' : list Z) :
  ids' `sublist_of` ids → StronglySorted Z.lt ids → StronglySorted Z.lt ids'.
Proof.
  induction 1 as [|i l1 l2 Hsub IH|i l1 l2 Hsub IH]; [done|..].
  - intros [Hall Hs]%StronglySorted_cons. apply StronglySorted_cons.
    split; [|by apply IH].
    rewrite Forall_forall in *. intros j Hj. apply Hall.
    by eapply elem_of_sublist.
  - intros [_ Hs]%StronglySorted_cons. by apply IH.
Qed.

Lemma serve_sorted (db : DB) (req : Request) :
  StronglySorted Z.lt (EventDB.id <$> events db)
  ∧ StronglySorted Z.lt (UserDB.id <$> users db)
  ∧ StronglySorted Z.lt (CalendarDB.id <$> calendar db) →
  StronglySorted Z.lt (EventDB.id <$> events (serve req db).2)
  ∧ StronglySorted Z.lt (UserDB.id <$> users (serve req db).2)
  ∧ StronglySorted Z.lt (CalendarDB.id <$> calendar (serve req db).2).
Proof.
  intros (He & Hu & Hc). split_and!.
  - destruct (serve_events req db)
      as [->|[(new & Hid & ->)|[(updated & ->)|(event_id & ->)]]]; [done|..].
    + rewrite fmap_app. cbn. rewrite Hid. by apply sorted_snoc.
    + by rewrite overwrite_ids.
    + eapply sorted_sublist; [|exact He]. apply fmap_sublist, sublist_filter.
  - destruct (serve_users_rowid req db) as [->|(data & _ & _ & ->)]; [done|].
    rewrite fmap_app. cbn. by apply sorted_snoc.
  - destruct (serve_calendar req db) as [->|(data & _ & _ & _ & ->)]; [done|].
    rewrite fmap_app. cbn. by apply sorted_snoc.
Qed.

(** X1: in every state reached from the empty database the primary keys of
    the three tables are at least 1 and pairwise distinct. *)
Theorem reachable_primary_keys (reqs : list Request) :
  let db := run reqs empty_db in
  (NoDup (EventDB.id <$> events db) ∧ Forall (λ i, 1 ≤ i) (EventDB.id <$> events db))
  ∧ (NoDup (UserDB.id <$> users db) ∧ Forall (λ i, 1 ≤ i) (UserDB.id <$> users db))
  ∧ (NoDup (CalendarDB.id <$> calendar db)
     ∧ Forall (λ i, 1 ≤ i) (CalendarDB.id <$> calendar db)).
Proof.
  cbn. by destruct (run_db_ok reqs empty_db db_ok_empty) as [He Hu Hc _ _].
Qed.

(** X2: in every state reached from the empty database each calendar entry
    carries the id of a stored user: users are never removed, so an entry
    never loses its owner. *)
Theorem reachable_calendar_owner (reqs : list Request) :
  let db := run reqs empty_db in
  Forall (λ c, has_user db (CalendarDB.user_id c)) (calendar db).
Proof.
  cbn. by destruct (run_db_ok reqs empty_db db_ok_empty) as [_ _ _ _ Ho].
Qed.

(** X3: in every state reached from the empty database each table holds its
    rows in strictly increasing order of id, and listing the events answers
    with exactly the stored events, record by record in that order, every
    one with its id, never null. *)
Theorem reachable_rows_ascending (reqs : list Request) :
  let db := run reqs empty_db in
  StronglySorted Z.lt (EventDB.id <$> events db)
  ∧ StronglySorted Z.lt (UserDB.id <$> users db)
  ∧ StronglySorted Z.lt (CalendarDB.id <$> calendar db)
  ∧ ∃ listed,
      serve GET_events db = (Return (EventListBody listed), db)
      ∧ listed = Event.from_attributes <$> events db
      ∧ Event.id <$> listed = Some <$> (EventDB.id <$> events db).
Proof.
  cbn.
  pose proof (run_invariant
    (λ db, StronglySorted Z.lt (EventDB.id <$> events db)
           ∧ StronglySorted Z.lt (UserDB.id <$> users db)
           ∧ StronglySorted Z.lt (CalendarDB.id <$> calendar db))
    serve_sorted reqs empty_db) as Hsorted.
  destruct Hsorted as (He & Hu & Hc); [by repeat split; constructor|].
  split_and!; try done.
  exists (Event.from_attributes <$> events (run reqs empty_db)).
  split_and!; [apply get_events_serve|done|].
  by rewrite <- !list_fmap_compose.
Qed.

(** ** What a request can and cannot touch *)

(** X4: a request that is not answered with a result leaves the stored data
    exactly as it was, whatever the request: every handler raises before it
    writes, and nothing is written without a commit. *)
Theorem failed_request_changes_nothing (req : Request) (db : DB) :
  (∀ body, (serve req db).1 ≠ Return body) → (serve req db).2 = db.
Proof.
  intros Hfail.
  destruct req; cbn [serve] in *; rewrite ?route_fst, ?route_snd in *; try done.
  - destruct (decide (login_taken db (RegisterRequest.login data))) as [Ht|Hf].
    + by rewrite register_run_taken.
    + rewrite register_run_new in Hfail by done. by edestruct Hfail.
  - destruct (decide (credentials_match db data)) as [Hm|Hm].
    + by destruct (login_run_match db data Hm) as (u & _ & _ & _ & ->).
    + by rewrite login_run_no_match.
  - rewrite create_event_run in Hfail. by edestruct Hfail.
  - destruct (decide (has_event db event_id)) as [Hin|Hno].
    + rewrite update_event_run_found in Hfail by done. by edestruct Hfail.
    + by rewrite update_event_absent_snd.
  - destruct (decide (has_event db event_id)) as [Hin|Hno].
    + rewrite delete_event_run_found in Hfail by done. by edestruct Hfail.
    + by rewrite delete_event_absent_snd.
  - destruct (decide (has_user db (CalendarItem.user_id data))) as [Hu|Hu];
    [destruct (decide (has_event db (CalendarItem.event_id data))) as [He|He]|].
    + rewrite add_to_calendar_run_ok in Hfail by done. by edestruct Hfail.
    + rewrite add_to_calendar_absent_snd; [done|by right].
    + rewrite add_to_calendar_absent_snd; [done|by left].
  - by rewrite get_calendar_snd.
Qed.

(** X5: each request writes to at most one table.  Registration leaves
    events and calendar alone; creating, updating and deleting an event leave
    users and calendar alone; adding to the calendar leaves events and users
    alone; login, both listings and both settings requests change nothing. *)
Theorem request_frame (req : Request) (db : DB) :
  let db' := (serve req db).2 in
  match req with
  | POST_register _ => events db' = events db ∧ calendar db' = calendar db
  | POST_events _ | PUT_events _ _ | DELETE_events _ =>
      users db' = users db ∧ calendar db' = calendar db
  | POST_calendar _ => events db' = events db ∧ users db' = users db
  | POST_login _ | GET_events | GET_calendar _ | GET_settings _
  | PUT_settings _ _ => db' = db
  end.
Proof.
  destruct req; cbn [serve]; rewrite ?route_snd; try done.
  - destruct (decide (login_taken db (RegisterRequest.login data))) as [Ht|Hf].
    + by rewrite register_run_taken.
    + by rewrite register_run_new.
  - destruct (decide (credentials_match db data)) as [Hm|Hm].
    + by destruct (login_run_match db data Hm) as (u & _ & _ & _ & ->).
    + by rewrite login_run_no_match.
  - by rewrite create_event_run.
  - destruct (decide (has_event db event_id)) as [Hin|Hno].
    + by rewrite update_event_run_found.
    + by rewrite update_event_absent_snd.
  - destruct (decide (has_event db event_id)) as [Hin|Hno].
    + by rewrite delete_event_run_found.
    + by rewrite delete_event_absent_snd.
  - destruct (decide (has_user db (CalendarItem.user_id data))) as [Hu|Hu];
    [destruct (decide (has_event db (CalendarItem.event_id data))) as [He|He]|].
    + by rewrite add_to_calendar_run_ok.
    + rewrite add_to_calendar_absent_snd; [done|by right].
    + rewrite add_to_calendar_absent_snd; [done|by left].
  - by rewrite get_calendar_snd.
Qed.

(** X6: no sequence of requests removes or rewrites a user or a calendar
    entry: from any state, the users table and the calendar table afterwards
    begin with the rows they had, in the same order. *)
Theorem users_and_calendar_only_grow (reqs : list Request) (db : DB) :
  users db `prefix_of` users (run reqs db)
  ∧ calendar db `prefix_of` calendar (run reqs db).
Proof.
  revert db. induction reqs as [|req reqs IH]; intros db; [done|].
  cbn. destruct (IH (serve req db).2) as [Hu Hc]. split.
  - etrans; [|exact Hu].
    destruct (serve_users req db) as [->|(data & uid & _ & _ & ->)]; [done|].
    by apply prefix_app_r.
  - etrans; [|exact Hc].
    destruct (serve_calendar req db) as [->|(data & _ & _ & _ & ->)]; [done|].
    by apply prefix_app_r.
Qed.

(** ** How the requests compose *)

(** X7: registration followed by login.  After a login no stored user has
    is registered, logging in with the same login and password is answered
    with the very user the registration returned, and logging in with that
    login and any other password is answered 401; neither login changes the
    data. *)
Theorem register_then_login (db : DB) (l p p' : string) :
  ¬ login_taken db l → p' ≠ p →
  ∃ uid db1,
    serve (POST_register (RegisterRequest.mk l p)) db
    = (Return (UserBody (User.mk uid l)), db1)
    ∧ serve (POST_login (RegisterRequest.mk l p)) db1
      = (Return (UserBody (User.mk uid l)), db1)
    ∧ serve (POST_login (RegisterRequest.mk l p')) db1
      = (HTTPException 401 "Invalid login or password", db1).
Proof.
  intros Hfree Hpw. do 2 eexists. cbn [serve].
  rewrite (route_run _ _ _ _ _
    (register_run_new db (RegisterRequest.mk l p) Hfree)).
  split; [done|]. split.
  - unfold route, login. handler_unfold.
    rewrite first_filter_snoc_new; [done| |done].
    intros u Hu [Hl _]. apply Hfree. by exists u.
  - assert (¬ credentials_match
               (set_users (λ rows, rows ++
                  [UserDB.mk (next_rowid (UserDB.id <$> users db)) l p]) db)
               (RegisterRequest.mk l p')) as Hno.
    { intros (u & Hu & Hl & Hp). cbn in Hu, Hl, Hp.
      apply elem_of_app in Hu as [Hu| ->%list_elem_of_singleton].
      - apply Hfree. by exists u.
      - by apply Hpw. }
    by rewrite (route_run _ _ _ _ _ (login_run_no_match _ _ Hno)).
Qed.

Lemma filter_fresh_snoc (rows : list EventDB.t) (new : EventDB.t) :
  EventDB.id new ∉ EventDB.id <$> rows →
  filter (λ e, EventDB.id e ≠ EventDB.id new) (rows ++ [new]) = rows.
Proof.
  intros Hfresh. rewrite filter_app, filter_cons_False, filter_nil, app_nil_r
    by (by intros ?).
  induction rows as [|e rows IH]; [done|].
  rewrite fmap_cons, not_elem_of_cons in Hfresh. destruct Hfresh as [Hne Hfresh].
  rewrite filter_cons_True by done. f_equal. by apply IH.
Qed.

Lemma delete_event_run_newest (db : DB) (new : EventDB.t) :
  EventDB.id new ∉ EventDB.id <$> events db →
  with_db (delete_event (EventDB.id new)) (set_events (λ rows, rows ++ [new]) db)
  = (Return [("message", "Event deleted")], db).
Proof.
  intros Hfresh.
  assert (has_event (set_events (λ rows, rows ++ [new]) db) (EventDB.id new))
    as Hin.
  { exists new. split; [|done]. cbn. apply elem_of_app. right. by left. }
  rewrite (delete_event_run_found _ (EventDB.id new) Hin).
  unfold set_events. cbn [events users calendar].
  rewrite filter_fresh_snoc by done. by destruct db.
Qed.

(** X8: creating an event and deleting it again.  From any state, deleting
    the event under the id its creation returned is answered "Event deleted"
    and gives back the state from before the creation, table for table; so
    the next event created takes that same id again. *)
Theorem create_then_delete (db : DB) (event event' : Event.t) :
  ∃ new_id db1,
    serve (POST_events event) db
    = (Return (EventBody
         (Event.mk (Some new_id) (Event.name event) (Event.date event)
            (Event.time event) (Event.place event) (Event.description event)
            (Event.image_url event))), db1)
    ∧ serve (DELETE_events new_id) db1
      = (Return (DictBody [("message", "Event deleted")]), db)
    ∧ run [POST_events event; DELETE_events new_id] db = db
    ∧ (serve (POST_events event')
         (run [POST_events event; DELETE_events new_id] db)).1
      = Return (EventBody
          (Event.mk (Some new_id) (Event.name event') (Event.date event')
             (Event.time event') (Event.place event') (Event.description event')
             (Event.image_url event'))).
Proof.
  set (new := EventDB.mk (next_rowid (EventDB.id <$> events db)) (Event.name event)
    (Event.date event) (Event.time event) (Event.place event)
    (Event.description event) (Event.image_url event)).
  assert (serve (POST_events event) db
          = (Return (EventBody (Event.from_attributes new)),
             set_events (λ rows, rows ++ [new]) db)) as Hcreate.
  { cbn [serve]. by rewrite (route_run _ _ _ _ _ (create_event_run db event)). }
  assert (serve (DELETE_events (EventDB.id new)) (set_events (λ rows, rows ++ [new]) db)
          = (Return (DictBody [("message", "Event deleted")]), db)) as Hdelete.
  { cbn [serve].
    by rewrite (route_run _ _ _ _ _
      (delete_event_run_newest db new (next_rowid_fresh _))). }
  exists (EventDB.id new), (set_events (λ rows, rows ++ [new]) db).
  split; [exact Hcreate|]. split; [exact Hdelete|].
  assert (run [POST_events event; DELETE_events (EventDB.id new)] db = db) as Hrun.
  { unfold run. cbn [foldl]. rewrite Hcreate. cbn [snd]. by rewrite Hdelete. }
  split; [exact Hrun|]. rewrite Hrun. cbn [serve]. rewrite route_fst.
  by rewrite create_event_run.
Qed.

(** X9: the last update wins.  Updating an event twice in a row under the
    same id gives the answer and the state that the second update alone
    gives, whether the id is stored or not; in particular repeating an
    update changes nothing more. *)
Theorem update_event_last_wins (db : DB) (event_id : Z) (e1 e2 : Event.t) :
  serve (PUT_events event_id e2) (serve (PUT_events event_id e1) db).2
  = serve (PUT_events event_id e2) db.
Proof.
  cbn [serve]. rewrite route_snd.
  destruct (decide (has_event db event_id)) as [Hin|Hno].
  - rewrite (update_event_run_found db event_id e1 Hin). cbn [snd].
    set (u1 := EventDB.mk event_id (Event.name e1) (Event.date e1) (Event.time e1)
      (Event.place e1) (Event.description e1) (Event.image_url e1)).
    assert (has_event (set_events (fmap (overwrite u1)) db) event_id) as Hin'.
    { apply has_event_ids. cbn [events set_events].
      rewrite overwrite_ids. by apply has_event_ids. }
    rewrite (route_run _ _ _ _ _ (update_event_run_found db event_id e2 Hin)).
    rewrite (route_run _ _ _ _ _ (update_event_run_found _ event_id e2 Hin')).
    f_equal. unfold set_events. cbn [events users calendar]. f_equal.
    rewrite <- list_fmap_compose. apply list_fmap_ext.
    intros i e _. unfold overwrite, compose, u1. cbn.
    destruct (decide (EventDB.id e = event_id)) as [He|He]; cbn.
    + by rewrite decide_True.
    + by rewrite decide_False.
  - by rewrite (update_event_absent_snd db event_id e1 Hno).
Qed.

(** ** The calendar and deleted events *)

Lemma as_List_Event_None_inv (l : list (option EventDB.t)) :
  as_List_Event l = None → None ∈ l.
Proof.
  unfold as_List_Event. intros Hnone.
  destruct (mapM (fmap Event.from_attributes) l) as [k|] eqn:Hm; [done|].
  apply mapM_None_1 in Hm. apply Exists_exists in Hm as ([e|] & Hin & Hx); done.
Qed.

Lemma get_calendar_fault_inv (db : DB) (user_id : Z) :
  (serve (GET_calendar user_id) db).1 = ServerError →
  (¬ int64 user_id ∧ ∀ c, c ∈ calendar db → CalendarDB.user_id c ≠ user_id)
  ∨ ∃ c, orphaned db c ∧ CalendarDB.user_id c = user_id.
Proof.
  cbn [serve]. rewrite route_fst.
  destruct (get_calendar_cases db user_id)
    as [[-> _]|[_ [[Hnil Hv]|(c & Hc & Hno & _)]]].
  - cbn. destruct (as_List_Event _) as [b|] eqn:Hb; [done|]. intros _. right.
    apply as_List_Event_None_inv, list_elem_of_fmap in Hb as (c & Hc & Hin).
    apply list_elem_of_filter in Hin as [Hu Hin].
    exists c. split; [|done]. split; [done|].
    intros (e & He & Hid). symmetry in Hc.
    by apply (proj1 (first_filter_None _ _) Hc e).
  - intros _. left. split; [done|]. intros c Hc Hu.
    assert (c ∈ filter (λ c, CalendarDB.user_id c = user_id) (calendar db)) as Hin
      by (by apply list_elem_of_filter).
    rewrite Hnil in Hin. by apply not_elem_of_nil in Hin.
  - intros _. right. apply list_elem_of_filter in Hc as [Hu Hc].
    exists c. by split.
Qed.

(** X10: what a server error means.  A request ends in a server error in two
    situations only.  One is an integer of the request, an event id of an
    update or a deletion, a user id or an event id of a calendar entry to
    add, the user id of a calendar to list, that is outside the signed 64-bit
    range and carried by no stored row.  The other is a calendar listed for a
    user who has an entry whose event is not stored.  Registration, login,
    listing and creating events, and the settings requests never end so. *)
Theorem server_error_causes (req : Request) (db : DB) :
  (serve req db).1 = ServerError
  ↔ match req with
    | PUT_events event_id _ | DELETE_events event_id =>
        ¬ has_event db event_id ∧ ¬ int64 event_id
    | POST_calendar data =>
        (¬ has_user db (CalendarItem.user_id data)
         ∧ ¬ int64 (CalendarItem.user_id data))
        ∨ (¬ has_event db (CalendarItem.event_id data)
           ∧ ¬ int64 (CalendarItem.event_id data))
    | GET_calendar user_id =>
        (¬ int64 user_id
         ∧ ∀ c, c ∈ calendar db → CalendarDB.user_id c ≠ user_id)
        ∨ ∃ c, orphaned db c ∧ CalendarDB.user_id c = user_id
    | POST_register _ | POST_login _ | GET_events | POST_events _
    | GET_settings _ | PUT_settings _ _ => False
    end.
Proof.
  destruct req; cbn [serve]; rewrite ?route_fst; try done.
  - destruct (decide (login_taken db (RegisterRequest.login data))) as [Ht|Hf].
    + by rewrite register_run_taken.
    + by rewrite register_run_new.
  - destruct (decide (credentials_match db data)) as [Hm|Hm].
    + by destruct (login_run_match db data Hm) as (u & _ & _ & _ & ->).
    + by rewrite login_run_no_match.
  - rewrite get_events_run. cbn. by rewrite as_List_Event_rows.
  - by rewrite create_event_run.
  - destruct (decide (has_event db event_id)) as [Hin|Hno];
    [|destruct (decide (int64 event_id)) as [Hv|Hv]].
    + rewrite update_event_run_found by done. cbn. by split; [|intros [? _]].
    + rewrite update_event_run_missing by done. cbn. by split; [|intros [_ ?]].
    + by rewrite update_event_run_refused.
  - destruct (decide (has_event db event_id)) as [Hin|Hno];
    [|destruct (decide (int64 event_id)) as [Hv|Hv]].
    + rewrite delete_event_run_found by done. cbn. by split; [|intros [? _]].
    + rewrite delete_event_run_missing by done. cbn. by split; [|intros [_ ?]].
    + by rewrite delete_event_run_refused.
  - destruct (decide ((¬ has_user db (CalendarItem.user_id data)
                       ∧ ¬ int64 (CalendarItem.user_id data))
                      ∨ (¬ has_event db (CalendarItem.event_id data)
                         ∧ ¬ int64 (CalendarItem.event_id data)))) as [Hout|Hin].
    { by rewrite add_to_calendar_run_refused. }
    split; [|done]. intros Hfault. exfalso.
    assert (has_user db (CalendarItem.user_id data)
            ∨ int64 (CalendarItem.user_id data)) as Hu.
    { destruct (decide (has_user db (CalendarItem.user_id data))); [by left|].
      destruct (decide (int64 (CalendarItem.user_id data))); [by right|].
      exfalso. apply Hin. by left. }
    assert (has_event db (CalendarItem.event_id data)
            ∨ int64 (CalendarItem.event_id data)) as He.
    { destruct (decide (has_event db (CalendarItem.event_id data))); [by left|].
      destruct (decide (int64 (CalendarItem.event_id data))); [by right|].
      exfalso. apply Hin. by right. }
    destruct (decide (has_user db (CalendarItem.user_id data))) as [Hu'|Hu'];
    [destruct (decide (has_event db (CalendarItem.event_id data))) as [He'|He']|].
    + by rewrite add_to_calendar_run_ok in Hfault.
    + rewrite add_to_calendar_run_missing in Hfault; [done|by right|done..].
    + rewrite add_to_calendar_run_missing in Hfault; [done|by left|done..].
  - split.
    + intros Hfault. apply get_calendar_fault_inv. cbn [serve].
      by rewrite route_fst.
    + intros [[Hv Hnone]|(c & Hc & Hu)].
      * pose proof (get_calendar_refused db user_id Hv Hnone) as Hs.
        cbn [serve] in Hs. apply (f_equal fst) in Hs. by rewrite route_fst in Hs.
      * pose proof (get_calendar_orphan db user_id c Hc Hu) as Hs.
        cbn [serve] in Hs. apply (f_equal fst) in Hs. by rewrite route_fst in Hs.
Qed.

(** X11: the calendar of an id that is no user.  In every state reached from
    the empty database, asking for the calendar of an id no stored user has
    is answered with the empty list when the id is in the signed 64-bit
    range, and ends in a server error when it is not; it is never a 404. *)
Theorem calendar_of_unknown_user (reqs : list Request) (user_id : Z) :
  let db := run reqs empty_db in
  ¬ has_user db user_id →
  (int64 user_id →
     serve (GET_calendar user_id) db = (Return (EventListBody []), db))
  ∧ (¬ int64 user_id → serve (GET_calendar user_id) db = (ServerError, db)).
Proof.
  cbn. intros Hno.
  pose proof (run_db_ok reqs empty_db db_ok_empty) as Hok. split.
  - intros Hv. by apply get_calendar_unknown_user.
  - intros Hv. apply get_calendar_refused; [done|].
    destruct Hok as [_ _ _ _ Hown]. rewrite Forall_forall in Hown.
    intros c Hc Hu. apply Hno. rewrite <- Hu. by apply Hown.
Qed.

(** X12: deleting a saved event breaks the calendar of whoever saved it.
    For every stored calendar entry, once the deletion of its event has been
    requested, the calendar of its user is answered with a server error, and
    the entry is still there. *)
Theorem delete_breaks_calendar (db : DB) (c : CalendarDB.t) :
  c ∈ calendar db →
  let db' := (serve (DELETE_events (CalendarDB.event_id c)) db).2 in
  c ∈ calendar db'
  ∧ serve (GET_calendar (CalendarDB.user_id c)) db' = (ServerError, db').
Proof.
  intros Hc. cbn [serve]. rewrite route_snd.
  assert (orphaned (with_db (delete_event (CalendarDB.event_id c)) db).2 c)
    as Horphan.
  { destruct (decide (has_event db (CalendarDB.event_id c))) as [Hin|Hno].
    - rewrite delete_event_run_found by done. split; [done|].
      apply has_event_after_delete.
    - by rewrite delete_event_absent_snd. }
  split; [by destruct Horphan|].
  by apply (get_calendar_orphan _ _ c).
Qed.

Lemma as_List_Event_snoc (l : list (option EventDB.t)) (k : list Event.t)
    (e : EventDB.t) :
  as_List_Event l = Some (EventListBody k) →
  as_List_Event (l ++ [Some e])
  = Some (EventListBody (k ++ [Event.from_attributes e])).
Proof.
  unfold as_List_Event. intros Hl.
  destruct (mapM (fmap Event.from_attributes) l) as [k'|] eqn:Hm; [|done].
  injection Hl as ->.
  rewrite (mapM_Some_2 _ (l ++ [Some e]) (k ++ [Event.from_attributes e])); [done|].
  apply Forall2_app; [by apply mapM_Some_1|]. by constructor.
Qed.

(** X13: saving an event shows up at the end of the calendar.  When the
    user and the event of the payload are stored and the calendar of the
    user can be answered, adding the entry succeeds and the calendar asked for
    next is the former answer followed by the full record of the stored event
    with that id. *)
Theorem add_to_calendar_then_get (db : DB) (data : CalendarItem.t)
    (listed : list Event.t) :
  has_user db (CalendarItem.user_id data) →
  has_event db (CalendarItem.event_id data) →
  serve (GET_calendar (CalendarItem.user_id data)) db
  = (Return (EventListBody listed), db) →
  ∃ e db',
    e ∈ events db
    ∧ EventDB.id e = CalendarItem.event_id data
    ∧ serve (POST_calendar data) db
      = (Return (DictBody [("message", "Added to calendar")]), db')
    ∧ serve (GET_calendar (CalendarItem.user_id data)) db'
      = (Return (EventListBody (listed ++ [Event.from_attributes e])), db').
Proof.
  intros Hu He Hbefore.
  destruct He as (e0 & He0 & Hid0).
  destruct (first_filter_found (λ e, EventDB.id e = CalendarItem.event_id data)
              (events db) e0 He0 Hid0) as (e & Hfirst & He & Hid).
  exists e. eexists. split; [exact He|]. split; [exact Hid|].
  split.
  { cbn [serve].
    by rewrite (route_run _ _ _ _ _
      (add_to_calendar_run_ok db data Hu (ex_intro _ e0 (conj He0 Hid0)))). }
  apply get_calendar_serve_Return_inv in Hbefore as [_ Hb].
  unfold set_calendar.
  apply get_calendar_serve_Return; cbn [events users calendar];
    rewrite filter_app, filter_cons_True, filter_nil by done.
  - left. by intros [_ ?]%app_eq_nil.
  - rewrite fmap_app. cbn [fmap list_fmap CalendarDB.event_id]. rewrite Hfirst.
    by apply as_List_Event_snoc.
Qed.

Lemma filter_other_ids (rows : list EventDB.t) (event_id : Z) :
  event_id ∉ EventDB.id <$> rows →
  filter (λ e, EventDB.id e ≠ event_id) rows = rows.
Proof.
  induction rows as [|e rows IH]; [done|].
  rewrite fmap_cons, not_elem_of_cons. intros [Hne Hrest].
  rewrite filter_cons_True by done. f_equal. by apply IH.
Qed.

Lemma delete_row_permutation (rows : list EventDB.t) (e : EventDB.t) :
  NoDup (EventDB.id <$> rows) → e ∈ rows →
  rows ≡ₚ e :: filter (λ x, EventDB.id x ≠ EventDB.id e) rows.
Proof.
  induction rows as [|y rows IH]; [by intros _ ?%not_elem_of_nil|].
  rewrite fmap_cons, NoDup_cons. intros [Hy Hnd] [->|Hin]%elem_of_cons.
  - rewrite filter_cons_False by (by intros ?).
    by rewrite filter_other_ids.
  - rewrite filter_cons_True.
    + rewrite (IH Hnd Hin) at 1. apply Permutation_swap.
    + intros Heq. apply Hy. rewrite Heq. by apply list_elem_of_fmap_2.
Qed.

(** X14: a deletion removes exactly one record.  In every state reached
    from the empty database, deleting a stored event id takes one record out
    of the events table, the one with that id, and keeps all the others. *)
Theorem delete_event_removes_one (reqs : list Request) (event_id : Z) :
  let db := run reqs empty_db in
  has_event db event_id →
  ∃ e,
    e ∈ events db
    ∧ EventDB.id e = event_id
    ∧ events db ≡ₚ e :: events (serve (DELETE_events event_id) db).2
    ∧ length (events db) = S (length (events (serve (DELETE_events event_id) db).2)).
Proof.
  cbn. intros Hin.
  destruct (run_db_ok reqs empty_db db_ok_empty) as [[Hnd _] _ _ _ _].
  set (db := run reqs empty_db) in *.
  pose proof Hin as (e & He & Hid). exists e.
  assert (events db ≡ₚ e :: events (serve (DELETE_events event_id) db).2) as Hperm.
  { cbn [serve]. rewrite route_snd, delete_event_run_found by done.
    cbn [snd events set_events]. rewrite <- Hid. by apply delete_row_permutation. }
  split_and!; [done..|]. by rewrite Hperm at 1.
Qed.

(** ** Long-run behaviour *)

Lemma run_users_prefix (reqs : list Request) (db : DB) :
  users db `prefix_of` users (run reqs db).
Proof.
  revert db. induction reqs as [|req reqs IH]; intros db; [done|].
  cbn. etrans; [|apply IH].
  destruct (serve_users req db) as [->|(data & uid & _ & _ & ->)]; [done|].
  by apply prefix_app_r.
Qed.

Lemma first_filter_app_Some {A} (P : A → Prop) `{!∀ x, Decision (P x)}
    (rows more : list A) (x : A) :
  first (filter P rows) = Some x → first (filter P (rows ++ more)) = Some x.
Proof.
  unfold first. rewrite filter_app.
  destruct (filter P rows) as [|y l]; [done|]. done.
Qed.

(** X15: registered credentials keep working.  After a login no stored user
    has is registered, logging in with that login and password is answered
    with the user the registration returned, after any sequence of further
    requests whatever: no request removes a user, changes a password or
    hands the login to someone else. *)
Theorem registered_login_stays_valid (db : DB) (l p : string)
    (reqs : list Request) :
  ¬ login_taken db l →
  ∃ uid db1,
    serve (POST_register (RegisterRequest.mk l p)) db
    = (Return (UserBody (User.mk uid l)), db1)
    ∧ serve (POST_login (RegisterRequest.mk l p)) (run reqs db1)
      = (Return (UserBody (User.mk uid l)), run reqs db1).
Proof.
  intros Hfree. do 2 eexists. cbn [serve].
  rewrite (route_run _ _ _ _ _
    (register_run_new db (RegisterRequest.mk l p) Hfree)).
  split; [done|].
  destruct (run_users_prefix reqs (set_users (λ rows, rows ++
    [UserDB.mk (next_rowid (UserDB.id <$> users db)) l p]) db)) as [rest Hrest].
  remember (run reqs _) as dbn eqn:Hdbn. clear Hdbn.
  cbn [users set_users] in Hrest.
  unfold route, login. handler_unfold. rewrite Hrest.
  rewrite (first_filter_app_Some _ _ rest
    (UserDB.mk (next_rowid (UserDB.id <$> users db)) l p)); [done|].
  rewrite first_filter_snoc_new; [done| |done].
  intros y Hy [Hl _]. apply Hfree. by exists y.
Qed.

Lemma adoption_state (db : DB) (user_id : Z) (a b : Event.t) :
  has_user db user_id →
  let n := next_rowid (EventDB.id <$> events db) in
  run [POST_events a; POST_calendar (CalendarItem.mk user_id n);
       DELETE_events n; POST_events b] db
  = mkDB (events db ++ [EventDB.mk n (Event.name b) (Event.date b) (Event.time b)
                          (Event.place b) (Event.description b) (Event.image_url b)])
         (users db)
         (calendar db ++ [CalendarDB.mk (next_rowid (CalendarDB.id <$> calendar db))
                            user_id n]).
Proof.
  intros Hu n. unfold run. cbn [foldl serve]. rewrite !route_snd.
  set (new := EventDB.mk n (Event.name a) (Event.date a) (Event.time a)
    (Event.place a) (Event.description a) (Event.image_url a)).
  rewrite (create_event_run db a). cbn [snd]. fold n. fold new.
  assert (has_event (set_events (λ rows, rows ++ [new]) db) n) as He.
  { exists new. split; [|done]. cbn. apply elem_of_app. right. by left. }
  rewrite (add_to_calendar_run_ok (set_events (λ rows, rows ++ [new]) db)
             (CalendarItem.mk user_id n) Hu He). cbn [snd].
  cbn [CalendarItem.user_id CalendarItem.event_id calendar set_events].
  set (item := CalendarDB.mk (next_rowid (CalendarDB.id <$> calendar db)) user_id n).
  change (set_calendar (λ rows, rows ++ [item])
            (set_events (λ rows, rows ++ [new]) db))
    with (set_events (λ rows, rows ++ [new])
            (set_calendar (λ rows, rows ++ [item]) db)).
  change (delete_event n) with (delete_event (EventDB.id new)).
  rewrite (delete_event_run_newest (set_calendar (λ rows, rows ++ [item]) db) new)
    by apply next_rowid_fresh.
  cbn [snd]. by rewrite create_event_run.
Qed.

(** X16: a deleted event's calendar entry is taken over by the next event.
    From any state in which the calendar of a stored user can be answered:
    create an event, save it for the user, delete it, and create another
    event.  The second event gets the id of the first, and the calendar of
    the user is then the former answer followed by the second event, which
    the user never saved. *)
Theorem calendar_entry_adopted (db : DB) (user_id : Z) (a b : Event.t)
    (listed : list Event.t) :
  has_user db user_id →
  serve (GET_calendar user_id) db = (Return (EventListBody listed), db) →
  ∃ n,
    (serve (POST_events a) db).1
    = Return (EventBody
        (Event.mk (Some n) (Event.name a) (Event.date a) (Event.time a)
           (Event.place a) (Event.description a) (Event.image_url a)))
    ∧ let db' := run [POST_events a; POST_calendar (CalendarItem.mk user_id n);
                      DELETE_events n; POST_events b] db in
      serve (GET_calendar user_id) db'
      = (Return (EventListBody (listed ++
           [Event.mk (Some n) (Event.name b) (Event.date b) (Event.time b)
              (Event.place b) (Event.description b) (Event.image_url b)])), db').
Proof.
  intros Hu Hbefore. exists (next_rowid (EventDB.id <$> events db)). split.
  { cbn [serve]. by rewrite route_fst, create_event_run. }
  cbn zeta. rewrite (adoption_state db user_id a b Hu).
  set (n := next_rowid (EventDB.id <$> events db)).
  set (new := EventDB.mk n (Event.name b) (Event.date b) (Event.time b)
    (Event.place b) (Event.description b) (Event.image_url b)).
  set (item := CalendarDB.mk (next_rowid (CalendarDB.id <$> calendar db)) user_id n).
  apply get_calendar_serve_Return_inv in Hbefore as [_ Hb].
  apply get_calendar_serve_Return; cbn [events users calendar];
    rewrite filter_app, filter_cons_True, filter_nil by done.
  { left. by intros [_ ?]%app_eq_nil. }
  rewrite fmap_app. cbn [fmap list_fmap]. cbn [CalendarDB.event_id item].
  assert (first (filter (λ e, EventDB.id e = n) (events db ++ [new])) = Some new)
    as ->.
  { apply first_filter_snoc_new; [|done]. intros y Hy Hid.
    apply (next_rowid_fresh (EventDB.id <$> events db)). fold n.
    rewrite <- Hid. by apply list_elem_of_fmap_2. }
  erewrite list_fmap_ext; [by rewrite (as_List_Event_snoc _ listed new Hb)|].
  intros i c Hc. cbn.
  destruct (first (filter (λ e, EventDB.id e = CalendarDB.event_id c) (events db)))
    as [e|] eqn:Hfound; [by apply first_filter_app_Some|].
  rewrite as_List_Event_None in Hb; [done|].
  apply list_elem_of_fmap. exists c. split; [done|].
  by apply list_elem_of_lookup_2 in Hc.
Qed.

(** ** The further properties at the sample states *)

Lemma failed_request_changes_nothing_witness :
  (∀ body, (serve (DELETE_events 9999) booked_db).1 ≠ Return body)
  ∧ (serve (DELETE_events 9999) booked_db).2 = booked_db.
Proof.
  assert (∀ body, (serve (DELETE_events 9999) booked_db).1 ≠ Return body) as Hfail.
  { intros body. vm_compute. discriminate. }
  split; [exact Hfail|].
  exact (failed_request_changes_nothing (DELETE_events 9999) booked_db Hfail).
Defined.

Lemma register_then_login_witness :
  ¬ login_taken empty_db "alice" ∧ "guess" ≠ "secret"
  ∧ ∃ uid db1,
      serve (POST_register (RegisterRequest.mk "alice" "secret")) empty_db
      = (Return (UserBody (User.mk uid "alice")), db1)
      ∧ serve (POST_login (RegisterRequest.mk "alice" "secret")) db1
        = (Return (UserBody (User.mk uid "alice")), db1)
      ∧ serve (POST_login (RegisterRequest.mk "alice" "guess")) db1
        = (HTTPException 401 "Invalid login or password", db1).
Proof.
  assert (¬ login_taken empty_db "alice") as Hfree by by_computation.
  assert ("guess" ≠ "secret") as Hpw by by_computation.
  split; [exact Hfree|]. split; [exact Hpw|].
  exact (register_then_login empty_db "alice" "secret" "guess" Hfree Hpw).
Defined.

Lemma calendar_of_unknown_user_witness :
  (¬ has_user (run booked_history empty_db) 2 ∧ int64 2
   ∧ serve (GET_calendar 2) (run booked_history empty_db)
     = (Return (EventListBody []), run booked_history empty_db))
  ∧ (¬ has_user (run booked_history empty_db) 9223372036854775808
     ∧ ¬ int64 9223372036854775808
     ∧ serve (GET_calendar 9223372036854775808) (run booked_history empty_db)
       = (ServerError, run booked_history empty_db)).
Proof.
  assert (¬ has_user (run booked_history empty_db) 2) as Hno by by_computation.
  assert (int64 2) as Hv by by_computation.
  assert (¬ has_user (run booked_history empty_db) 9223372036854775808)
    as Hno' by by_computation.
  assert (¬ int64 9223372036854775808) as Hv' by by_computation.
  split.
  - split; [exact Hno|]. split; [exact Hv|].
    exact (proj1 (calendar_of_unknown_user booked_history 2 Hno) Hv).
  - split; [exact Hno'|]. split; [exact Hv'|].
    exact (proj2 (calendar_of_unknown_user booked_history 9223372036854775808 Hno')
             Hv').
Defined.

Lemma delete_breaks_calendar_witness :
  CalendarDB.mk 1 1 1 ∈ calendar booked_db
  ∧ serve (GET_calendar 1) (serve (DELETE_events 1) booked_db).2
    = (ServerError, (serve (DELETE_events 1) booked_db).2).
Proof.
  assert (CalendarDB.mk 1 1 1 ∈ calendar booked_db) as Hc.
  { vm_compute. left. }
  split; [exact Hc|].
  exact (proj2 (delete_breaks_calendar booked_db (CalendarDB.mk 1 1 1) Hc)).
Defined.

Lemma add_to_calendar_then_get_witness :
  has_user booked_db 1 ∧ has_event booked_db 1
  ∧ serve (GET_calendar 1) booked_db
    = (Return (EventListBody
         [Event.mk (Some 1) "Concert" "2024-05-01" "19:00" "Hall" "Live music"
            "/img/concert.png"]), booked_db)
  ∧ ∃ e db',
      e ∈ events booked_db
      ∧ serve (GET_calendar 1) db'
        = (Return (EventListBody
             ([Event.mk (Some 1) "Concert" "2024-05-01" "19:00" "Hall"
                 "Live music" "/img/concert.png"]
              ++ [Event.from_attributes e])), db').
Proof.
  assert (has_user booked_db 1) as Hu by by_computation.
  assert (has_event booked_db 1) as He by by_computation.
  assert (serve (GET_calendar 1) booked_db
          = (Return (EventListBody
               [Event.mk (Some 1) "Concert" "2024-05-01" "19:00" "Hall"
                  "Live music" "/img/concert.png"]), booked_db)) as Hget.
  { vm_compute. reflexivity. }
  split; [exact Hu|]. split; [exact He|]. split; [exact Hget|].
  destruct (add_to_calendar_then_get booked_db (CalendarItem.mk 1 1) _ Hu He Hget)
    as (e & db' & Hin & _ & _ & Hafter).
  exists e, db'. split; assumption.
Defined.

Lemma delete_event_removes_one_witness :
  has_event (run booked_history empty_db) 1
  ∧ ∃ e,
      e ∈ events (run booked_history empty_db)
      ∧ EventDB.id e = 1
      ∧ length (events (run booked_history empty_db))
        = S (length (events
               (serve (DELETE_events 1) (run booked_history empty_db)).2)).
Proof.
  assert (has_event (run booked_history empty_db) 1) as Hin by by_computation.
  split; [exact Hin|].
  destruct (delete_event_removes_one booked_history 1 Hin)
    as (e & He & Hid & _ & Hlen).
  exists e. repeat split; assumption.
Defined.

Lemma registered_login_stays_valid_witness :
  ¬ login_taken empty_db "alice"
  ∧ ∃ uid db1,
      serve (POST_register (RegisterRequest.mk "alice" "secret")) empty_db
      = (Return (UserBody (User.mk uid "alice")), db1)
      ∧ serve (POST_login (RegisterRequest.mk "alice" "secret"))
          (run [POST_events concert; DELETE_events 1] db1)
        = (Return (UserBody (User.mk uid "alice")),
           run [POST_events concert; DELETE_events 1] db1).
Proof.
  assert (¬ login_taken empty_db "alice") as Hfree by by_computation.
  split; [exact Hfree|].
  exact (registered_login_stays_valid empty_db "alice" "secret"
           [POST_events concert; DELETE_events 1] Hfree).
Defined.

Lemma calendar_entry_adopted_witness :
  has_user booked_db 1
  ∧ serve (GET_calendar 1) booked_db
    = (Return (EventListBody
         [Event.mk (Some 1) "Concert" "2024-05-01" "19:00" "Hall" "Live music"
            "/img/concert.png"]), booked_db)
  ∧ ∃ n,
      let db' := run [POST_events lecture; POST_calendar (CalendarItem.mk 1 n);
                      DELETE_events n; POST_events concert] booked_db in
      serve (GET_calendar 1) db'
      = (Return (EventListBody
           ([Event.mk (Some 1) "Concert" "2024-05-01" "19:00" "Hall" "Live music"
               "/img/concert.png"]
            ++ [Event.mk (Some n) "Concert" "2024-05-01" "19:00" "Hall"
                  "Live music" "/img/concert.png"])), db').
Proof.
  assert (has_user booked_db 1) as Hu by by_computation.
  assert (serve (GET_calendar 1) booked_db
          = (Return (EventListBody
               [Event.mk (Some 1) "Concert" "2024-05-01" "19:00" "Hall"
                  "Live music" "/img/concert.png"]), booked_db)) as Hget.
  { vm_compute. reflexivity. }
  split; [exact Hu|]. split; [exact Hget|].
  destruct (calendar_entry_adopted booked_db 1 lecture concert _ Hu Hget)
    as (n & _ & Hafter).
  exists n. exact Hafter.
Defined.

Lemma get_calendar_all_found_witness :
  int64 1
  ∧ (∀ c, c ∈ calendar booked_db → CalendarDB.user_id c = 1 →
          has_event booked_db (CalendarDB.event_id c))
  ∧ ∃ rows,
      serve (GET_calendar 1) booked_db
      = (Return (EventListBody (Event.from_attributes <$> rows)), booked_db)
      ∧ length rows = 1%nat.
Proof.
  assert (int64 1) as Hv by by_computation.
  assert (∀ c, c ∈ calendar booked_db → CalendarDB.user_id c = 1 →
               has_event booked_db (CalendarDB.event_id c)) as Hall.
  { intros c Hc _. vm_compute in Hc.
    apply list_elem_of_singleton in Hc as ->. by_computation. }
  split; [exact Hv|]. split; [exact Hall|].
  destruct (get_calendar_all_found booked_db 1 Hv Hall) as (rows & Hs & Hrel).
  exists rows. split; [exact Hs|].
  apply Forall2_length in Hrel. rewrite <- Hrel. reflexivity.
Defined.
